(** * A shallow embedding of the cache decoder of the Superior Cache ANalyzer

    The Python package [scan] reads the on-disk cache of an HTTP caching
    proxy.  This development embeds the parts of [scan/utils.py],
    [scan/span.py], [scan/stripe.py], [scan/directory.py], [scan/http.py]
    and [scan/config.py] that decide the metadata selection, the stripe
    loop of a span, the head filter of a directory, the slicing of a Doc,
    the fragment table of an Alternate, the URL fallback of an Alternate,
    the consumer of the parallel enumeration, the duplicate check of the
    volume configuration and the decoding of a directory entry.

    Python evaluation is modelled by a small exception monad: every
    statement that can raise returns [Exc e]; names are resolved against
    explicit module name spaces, so that an unbound global or a missing
    module attribute raises as it does in the interpreter. *)

From Stdlib Require Import ZArith List String Ascii Bool Lia Strings.Byte.
From stdpp Require Import base gmap strings pretty.

Import ListNotations.
Open Scope Z_scope.

(* ------------------------------------------------------------------ *)
(** ** Python evaluation: exceptions and name spaces *)

Module Py.

(** The exception classes that the embedded code raises or catches. *)
Inductive exn :=
| NameError
| AttributeError
| ValueError
| TypeError
| IndexError
| StructError
| UnicodeError
| ZeroDivisionError
| ConfigException.

Definition exn_eqb (a b : exn) : bool :=
  match a, b with
  | NameError, NameError | AttributeError, AttributeError
  | ValueError, ValueError | TypeError, TypeError
  | IndexError, IndexError | StructError, StructError
  | UnicodeError, UnicodeError | ZeroDivisionError, ZeroDivisionError
  | ConfigException, ConfigException => true
  | _, _ => false
  end.

(** The outcome of evaluating a statement: a value or a raised exception. *)
Inductive result (A : Type) :=
| Ok (a : A)
| Exc (e : exn).
Arguments Ok {A} a.
Arguments Exc {A} e.

Definition bind {A B} (m : result A) (k : A -> result B) : result B :=
  match m with
  | Ok a => k a
  | Exc e => Exc e
  end.

(** [try: m except E: h]: the handler runs only for the caught classes. *)
Definition try_except {A} (m : result A) (caught : list exn)
    (handler : exn -> result A) : result A :=
  match m with
  | Ok a => Ok a
  | Exc e => if existsb (exn_eqb e) caught then handler e else Exc e
  end.

(** The names bound in a module's global name space. *)
Definition namespace := list string.

Definition bound (ns : namespace) (x : string) : bool :=
  existsb (String.eqb x) ns.

(** The names of Python 3's [builtins] module (dunder names omitted). *)
Definition builtins : namespace :=
  [ "abs"; "aiter"; "all"; "anext"; "any"; "ascii"; "bin"; "bool";
    "breakpoint"; "bytearray"; "bytes"; "callable"; "chr"; "classmethod";
    "compile"; "complex"; "copyright"; "credits"; "delattr"; "dict"; "dir";
    "divmod"; "enumerate"; "eval"; "exec"; "exit"; "filter"; "float";
    "format"; "frozenset"; "getattr"; "globals"; "hasattr"; "hash"; "help";
    "hex"; "id"; "input"; "int"; "isinstance"; "issubclass"; "iter"; "len";
    "license"; "list"; "locals"; "map"; "max"; "memoryview"; "min"; "next";
    "object"; "oct"; "open"; "ord"; "pow"; "print"; "property"; "quit";
    "range"; "repr"; "reversed"; "round"; "set"; "setattr"; "slice";
    "sorted"; "staticmethod"; "str"; "sum"; "super"; "tuple"; "type"; "vars";
    "zip"; "None"; "True"; "False"; "Ellipsis"; "NotImplemented";
    "BaseException"; "Exception"; "ArithmeticError"; "AssertionError";
    "AttributeError"; "BufferError"; "EOFError"; "ImportError";
    "IndexError"; "KeyError"; "KeyboardInterrupt"; "LookupError";
    "MemoryError"; "NameError"; "NotImplementedError"; "OSError";
    "OverflowError"; "RecursionError"; "ReferenceError"; "RuntimeError";
    "StopIteration"; "SyntaxError"; "SystemError"; "SystemExit";
    "TypeError"; "UnicodeError"; "ValueError"; "ZeroDivisionError";
    "IOError"; "EnvironmentError"; "Warning"; "UserWarning" ]%string.

(** LEGB resolution of a name inside a function body (no enclosing
    scopes are involved in the embedded methods): local, then global,
    then builtin; [NameError] otherwise. *)
Definition lookup_name (locals globals : namespace) (x : string)
    : result string :=
  if bound locals x || bound globals x || bound builtins x
  then Ok x else Exc NameError.

(** [module.attr] on a module object whose name space is [ns]. *)
Definition module_attr (ns : namespace) (x : string) : result string :=
  if bound ns x then Ok x else Exc AttributeError.

End Py.

Import Py.

Declare Scope py_scope.
Notation "x <- m ;; k" := (Py.bind m (fun x => k))
  (at level 100, m at next level, right associativity) : py_scope.
Open Scope py_scope.

(* ------------------------------------------------------------------ *)
(** ** [scan/utils.py] *)

Module Utils.

(** Every name [scan/utils.py] binds at module level: its imports, its
    constants, the class [CacheType] and its functions.  [log] is bound
    in both branches of [if __debug__]; [messageTemplate] and [isatty]
    only in the debug branch, which is the one taken by default. *)
Definition utils_globals : namespace :=
  [ "os"; "sys"; "struct"; "enum"; "psutil";
    "UNSIGNED_LONG_LONG_SIZE"; "POINTER_SIZE"; "STORE_BLOCK_SIZE";
    "VOL_BLOCK_SIZE"; "CacheType"; "unpacklong"; "fileSize"; "align";
    "numProcs"; "isatty"; "messageTemplate"; "log" ]%string.

(** A call [utils.f(...)] from another module: the attribute lookup on
    the module object comes first; the functions that exist only write to
    standard error, which this model does not record. *)
Definition utils_call (f : string) : result unit :=
  _ <- module_attr utils_globals f;; Ok tt.

Definition STORE_BLOCK_SIZE : Z := 8192.

(** The native pointer width of the 64-bit hosts the tool runs on. *)
Definition POINTER_SIZE : Z := 8.

(** [align(alignMe, alignTo=STORE_BLOCK_SIZE)]. *)
Definition align (alignMe alignTo : Z) : Z :=
  let x := alignMe mod alignTo in
  if x =? 0 then alignMe else alignMe + (alignTo - x).

(** [utils.CacheType(n)]: the enum constructor raises [ValueError] on a
    value that is not a member. *)
Inductive CacheType := NONE | HTTP | RTSP.

Definition CacheType_of (n : Z) : result CacheType :=
  if n =? 0 then Ok NONE
  else if n =? 1 then Ok HTTP
  else if n =? 2 then Ok RTSP
  else Exc ValueError.

End Utils.

(* ------------------------------------------------------------------ *)
(** ** [Stripe.read]: choosing between metadata copies A and B *)

Module StripeRead.

(** [Stripe.MAGIC] *)
Definition MAGIC : Z := 4057001997. (* 0xF1D0F00D *)

(** [struct.calcsize("Ihhl3Q8I")] with native alignment on a 64-bit host:
    4 + 2 + 2 + 8 + 3*8 + 8*4. *)
Definition sizeof : Z := 72.

(** The names bound at module level in [scan/stripe.py]. *)
Definition stripe_globals : namespace :=
  [ "struct"; "typing"; "time"; "asyncio"; "io"; "multiprocessing"; "np";
    "directory"; "utils"; "SpanBlockHeader"; "Stripe"; "SORdirSize" ]%string.

(** The local names of [Stripe.read] at the selection statement
    ([raw_header_A] and [raw_header_B] have just been deleted by [del]). *)
Definition read_locals : namespace :=
  [ "self"; "infile"; "offsetB"; "A"; "B" ]%string.

(** The fields of a [Stripe] that [read] writes. *)
Record stripe := mkStripe {
  st_offset : Z;          (* spanBlockHeader.offset *)
  st_length : Z;          (* spanBlockHeader.length, in store blocks *)
  st_numSegs : Z;
  st_contentOffset : Z;
  st_directoryOffset : Z;
  st_version : Z * Z;
  st_createTime : Z;
  st_writeCursor : Z;
  st_lastWritePos : Z;
  st_aggPos : Z;
  st_generation : Z;
  st_phase : bool;
  st_cycle : Z;
  st_syncSerial : Z;
  st_writeSerial : Z;
  st_dirty : Z;
  st_sectorSize : Z;
  st_unused : Z;
  st_validityLimit : Z
}.

(** Tuple indexing [t[i]] on an unpacked header. *)
Definition py_index (t : list Z) (i : nat) : result Z :=
  match nth_error t i with Some v => Ok v | None => Exc IndexError end.

(** [X.MAGIC] where [X] names the object bound to [x]: [self] is the
    stripe, whose class attribute [MAGIC] is [0xF1D0F00D]. *)
Definition magic_attr (x : string) : result Z :=
  if String.eqb x "self" then Ok MAGIC else Exc AttributeError.

(** The part of [Stripe.read] after both headers [A] and [B] have been
    unpacked (lines 440-476 of [scan/stripe.py]).  The condition of the
    selection is [B[0] == this.MAGIC and B[10] > A[10]]. *)
Definition read_select (s : stripe) (A B : list Z) (offsetB : Z)
    : result stripe :=
  b0 <- py_index B 0;;
  this <- lookup_name read_locals stripe_globals "this";;
  m <- magic_attr this;;
  chooseB <-
    (if b0 =? m then
       b10 <- py_index B 10;; a10 <- py_index A 10;; Ok (a10 <? b10)
     else Ok false);;
  let '(s, data) :=
    if chooseB then
      ({| st_offset := offsetB; st_length := st_length s;
          st_numSegs := st_numSegs s;
          st_contentOffset := st_contentOffset s;
          st_directoryOffset :=
            Utils.align (offsetB + sizeof + 2 * st_numSegs s) Utils.STORE_BLOCK_SIZE;
          st_version := st_version s; st_createTime := st_createTime s;
          st_writeCursor := st_writeCursor s; st_lastWritePos := st_lastWritePos s;
          st_aggPos := st_aggPos s; st_generation := st_generation s;
          st_phase := st_phase s; st_cycle := st_cycle s;
          st_syncSerial := st_syncSerial s; st_writeSerial := st_writeSerial s;
          st_dirty := st_dirty s; st_sectorSize := st_sectorSize s;
          st_unused := st_unused s; st_validityLimit := st_validityLimit s |}, B)
    else (s, A) in
  magic <- py_index data 0;;
  if negb (magic =? MAGIC) then Exc ValueError else
  d1 <- py_index data 1;; d2 <- py_index data 2;; d3 <- py_index data 3;;
  d4 <- py_index data 4;; d5 <- py_index data 5;; d6 <- py_index data 6;;
  d7 <- py_index data 7;; d8 <- py_index data 8;; d9 <- py_index data 9;;
  d10 <- py_index data 10;; d11 <- py_index data 11;; d12 <- py_index data 12;;
  d13 <- py_index data 13;; d14 <- py_index data 14;;
  let phase := negb (d8 =? 0) in
  let vl := d6 - st_contentOffset s + (if phase then d4 else 0) in
  Ok {| st_offset := st_offset s; st_length := st_length s; st_numSegs := st_numSegs s;
        st_contentOffset := st_contentOffset s;
        st_directoryOffset := st_directoryOffset s;
        st_version := (d1, d2); st_createTime := d3; st_writeCursor := d4;
        st_lastWritePos := d5; st_aggPos := d6; st_generation := d7;
        st_phase := phase; st_cycle := d9; st_syncSerial := d10;
        st_writeSerial := d11; st_dirty := d12; st_sectorSize := d13;
        st_unused := d14; st_validityLimit := vl / 512 |}.

(** Python's [a // b] on integers (floor division, [ZeroDivisionError]
    on a zero divisor). *)
Definition floordiv (a b : Z) : result Z :=
  if b =? 0 then Exc ZeroDivisionError else Ok (a / b).

(** [SORdirSize(start, length)] with the configured average object size
    [avgObjSize] (8000 unless [cache.min_average_object_size] is set).
    Returns the buckets per segment, the segments and the content offset. *)
Definition singleStep (avgObjSize start length : Z) (bsc : Z * Z * Z)
    : result (Z * Z * Z) :=
  let '(_, _, content) := bsc in
  buckets <- floordiv (length - content + start) (4 * avgObjSize);;
  q <- floordiv (- buckets) 16384;;
  let segs := - q in
  q <- floordiv (- buckets) segs;;
  let buckets := - q in
  c1 <- floordiv (- (34 + segs)) 4096;;
  c2 <- floordiv (-5 * buckets * segs) 1024;;
  Ok (buckets, segs, start + 16384 * (- c1 - c2 + 1)).

Definition SORdirSize (avgObjSize start length : Z) : result (Z * Z * Z) :=
  r1 <- singleStep avgObjSize start length (0, 0, start);;
  r2 <- singleStep avgObjSize start length r1;;
  singleStep avgObjSize start length r2.

(** [Stripe.read], with the file contents given as [disk]: the 15-tuple
    that [struct.unpack(BASIC_FORMAT, ...)] yields for the 72 bytes read at
    a file offset. *)
Definition read (avgObjSize : Z) (disk : Z -> list Z) (s : stripe)
    : result stripe :=
  let A := disk (st_offset s) in
  r <- SORdirSize avgObjSize (st_offset s) (st_length s * Utils.STORE_BLOCK_SIZE);;
  let '(buckets, segs, content) := r in
  let dirOff := Utils.align (st_offset s + sizeof + 2 * segs) Utils.STORE_BLOCK_SIZE in
  let numDirEntries := 4 * (buckets * segs) in
  let offsetB :=
    Utils.align (Utils.align (dirOff + 10 * numDirEntries) Utils.STORE_BLOCK_SIZE + sizeof)
                Utils.STORE_BLOCK_SIZE in
  let B := disk offsetB in
  read_select
    {| st_offset := st_offset s; st_length := st_length s; st_numSegs := segs;
       st_contentOffset := content; st_directoryOffset := dirOff;
       st_version := st_version s; st_createTime := st_createTime s;
       st_writeCursor := st_writeCursor s; st_lastWritePos := st_lastWritePos s;
       st_aggPos := st_aggPos s; st_generation := st_generation s;
       st_phase := st_phase s; st_cycle := st_cycle s;
       st_syncSerial := st_syncSerial s; st_writeSerial := st_writeSerial s;
       st_dirty := st_dirty s; st_sectorSize := st_sectorSize s;
       st_unused := st_unused s; st_validityLimit := st_validityLimit s |}
    A B offsetB.

(** [Stripe(raw_header, file)]: the [SpanBlockHeader] constructor decodes
    the cache type with [utils.CacheType(typeFree & 0x07)], which raises
    [ValueError] for 3..7; the metadata fields start at their placeholder
    [-1] ([phase] is falsy until [read]). *)
Definition construct (h : Z * Z * Z * Z) : result stripe :=
  let '(offset, length, number, typeFree) := h in
  _ <- Utils.CacheType_of (Z.land typeFree 7);;
  Ok {| st_offset := offset; st_length := length; st_numSegs := -1;
        st_contentOffset := -1; st_directoryOffset := -1;
        st_version := (-1, -1); st_createTime := -1; st_writeCursor := -1;
        st_lastWritePos := -1; st_aggPos := -1; st_generation := -1;
        st_phase := true; st_cycle := -1; st_syncSerial := -1;
        st_writeSerial := -1; st_dirty := -1; st_sectorSize := -1;
        st_unused := -1; st_validityLimit := -1 |}.

End StripeRead.

(* ------------------------------------------------------------------ *)
(** ** [Span.__init__]: the loop over the stripe headers of a span *)

Module Span.

Section SpanInit.

Context {S : Type}.

(** The stripe constructor, [Stripe.read], and the body of the handler
    [except ValueError:] (the [utils.log_exc] call; the [print] after it
    cannot raise). *)
Variable construct : Z * Z * Z * Z -> result S.
Variable read : S -> result S.
Variable on_construct_error : result unit.

(** Lines 63-71 of [scan/span.py]:
<<
for i in range(0, len(spanBlockHeaders), 4):
    try:
        spanblock = stripe.Stripe(spanBlockHeaders[i:i+4], file)
    except ValueError:
        utils.log_exc(...); print(...)
    else:
        spanblock.read()
        self.blocks.append(spanblock)
>>
    The headers come grouped by four; [blocks] is [self.blocks]. *)
Fixpoint span_blocks (hdrs : list (Z * Z * Z * Z)) (blocks : list S)
    : result (list S) :=
  match hdrs with
  | [] => Ok blocks
  | h :: t =>
      match try_except (s <- construct h;; Ok (Some s)) [ValueError]
              (fun _ => _ <- on_construct_error;; Ok None) with
      | Exc e => Exc e
      | Ok None => span_blocks t blocks
      | Ok (Some s) => s' <- read s;; span_blocks t (blocks ++ [s'])
      end
  end.

End SpanInit.

(** The loop as the code runs it. *)
Definition span_blocks_code (avgObjSize : Z) (disk : Z -> list Z)
    (hdrs : list (Z * Z * Z * Z)) : result (list StripeRead.stripe) :=
  span_blocks StripeRead.construct (StripeRead.read avgObjSize disk)
    (Utils.utils_call "log_exc") hdrs [].

End Span.

(* ------------------------------------------------------------------ *)
(** ** Bytes, [struct] and slices *)

Module Bytes.

(** The unsigned little-endian integer stored in [bs] ([struct.unpack]
    with a native format on the x86-64 hosts the tool targets). *)
Fixpoint le_int (bs : list byte) : Z :=
  match bs with
  | [] => 0
  | b :: t => Z.of_N (Byte.to_N b) + 256 * le_int t
  end.

(** [struct.pack] of the unsigned [v] over [n] little-endian bytes. *)
Fixpoint pack_le (n : nat) (v : Z) : list byte :=
  match n with
  | O => []
  | S n' =>
      match Byte.of_N (Z.to_N (v mod 256)) with
      | Some b => b | None => x00
      end :: pack_le n' (v / 256)
  end.

(** Normalisation of a slice bound of Python: negative bounds count from
    the end, and both are clamped to [0, len]. *)
Definition slice_bound (len i : Z) : Z :=
  if i <? 0 then Z.max 0 (i + len) else Z.min i len.

(** [l[a:b]] on a list, a [bytes] or a [str] (as its characters). *)
Definition py_slice {A} (l : list A) (a b : Z) : list A :=
  let len := Z.of_nat (length l) in
  let a' := slice_bound len a in
  let b' := slice_bound len b in
  firstn (Z.to_nat (b' - a')) (skipn (Z.to_nat a') l).

(** [l[a:]] *)
Definition py_slice_from {A} (l : list A) (a : Z) : list A :=
  py_slice l a (Z.of_nat (length l)).

(** [struct.unpack("%dP" % n, bs)] with 8-byte pointers: [struct.error]
    unless [bs] holds exactly [8 * n] bytes. *)
Fixpoint u64s (n : nat) (bs : list byte) : list Z :=
  match n with
  | O => []
  | S n' => le_int (firstn 8 bs) :: u64s n' (skipn 8 bs)
  end.

Definition unpack_P (n : Z) (bs : list byte) : result (list Z) :=
  if Z.of_nat (length bs) =? 8 * n then Ok (u64s (Z.to_nat n) bs)
  else Exc StructError.

End Bytes.

(* ------------------------------------------------------------------ *)
(** ** [scan/directory.py] *)

Module Directory.

(** A directory row: the five [uint16] half-words [w[0..4]]. *)
Definition row : Type := Z * Z * Z * Z * Z.

(** The attributes [DirEntry.__init__] stores in [self.__dict__]. *)
Record DirEntry := mkDirEntry {
  de_length : Z;
  de__offset : Z;
  de_token : bool;
  de_pinned : bool;
  de_head : bool;
  de_phase : bool;
  de_tag : Z;
  de_next : Z;
  de_Offset : Z
}.

(** [DirEntry.__init__] after [struct.unpack("HHHHH", raw)]. *)
Definition DirEntry_init (w : row) : DirEntry :=
  let '(w0, w1, w2, w3, w4) := w in
  let big := Z.shiftr (Z.land w1 49152) 14 in            (* & 0xC000 *)
  let size := Z.shiftr (Z.land w1 16128) 10 in           (* & 0x3F00 *)
  let off := w0 + Z.shiftl (Z.land w1 255) 16 + Z.shiftl w4 24 in
  {| de_length := (size + 1) * Z.shiftl 1 (9 + 3 * big);
     de__offset := off;
     de_token := Z.land w2 32768 =? 32768;
     de_pinned := Z.land w2 16384 =? 16384;
     de_head := Z.land w2 8192 =? 8192;
     de_phase := Z.land w2 4096 =? 4096;
     de_tag := Z.land w2 4095;
     de_next := w3;
     de_Offset := (off - 1) * 512 |}.

(** [bool(DirEntry)]: the entry is in use. *)
Definition DirEntry_bool (d : DirEntry) : bool := 0 <? de__offset d.

(** [struct.unpack("HHHHH", raw)] on the ten bytes of an entry. *)
Definition unpack_row (raw : list byte) : row :=
  let h i := Bytes.le_int (Bytes.py_slice raw (2 * i) (2 * i + 2)) in
  (h 0, h 1, h 2, h 3, h 4).

(** [dirOffset(d)] and [dirSize(d)] on a raw row. *)
Definition dirOffset (d : row) : Z :=
  let '(w0, w1, _, _, w4) := d in
  (w0 + Z.shiftl (Z.land w1 255) 16 + Z.shiftl w4 24 - 1) * 512.

Definition dirSize (d : row) : Z :=
  let '(_, w1, _, _, _) := d in
  let big := Z.shiftr (Z.land w1 49152) 14 in
  let size := Z.shiftr (Z.land w1 16128) 10 in
  (size + 1) * Z.shiftl 1 (9 + 3 * big).

(** [Doc.MAGIC], [Doc.CORRUPT_MAGIC] and [Doc.sizeof] (the [ctypes]
    structure of 72 bytes with 16-byte hashes). *)
Definition Doc_MAGIC : Z := 1595054867.       (* 0x5F129B13 *)
Definition Doc_CORRUPT_MAGIC : Z := 3735927486. (* 0xDEADBABE *)
Definition Doc_sizeof : Z := 72.

Record Doc := mkDoc {
  doc_magic : Z;
  doc_length : Z;
  doc_totalLength : Z;
  doc_hlen : Z
}.

(** [Doc.from_buffer(buf)]: [ctypes] raises [ValueError] when the buffer
    is shorter than the structure; the fields sit at their [ctypes]
    offsets. *)
Definition Doc_from_buffer (buf : list byte) : result Doc :=
  if Z.of_nat (length buf) <? Doc_sizeof then Exc ValueError else
  let field a n := Bytes.le_int (Bytes.py_slice buf a (a + n)) in
  Ok {| doc_magic := field 0 4; doc_length := field 4 4;
        doc_totalLength := field 8 8; doc_hlen := field 48 4 |}.

End Directory.

(* ------------------------------------------------------------------ *)
(** ** [Stripe.heads], the Doc slicing of [Stripe.firstDocs], and the
    consumer of [Stripe.parallelStoredObjects] *)

Module StripeDir.

Import Directory.

(** [numpy] arithmetic on a [uint16] array: the sum stays [uint16] and
    wraps modulo [2^16]. *)
Definition u16_add (a b : Z) : Z := (a + b) mod 65536.

(** The mask [directory[:,0] + (directory[:,1] & 0xFF) + directory[:,4] > 0]. *)
Definition nonzero_offset_mask (w : row) : bool :=
  let '(w0, w1, _, _, w4) := w in
  0 <? u16_add (u16_add w0 (Z.land w1 255)) w4.

(** The in-phase head masks. *)
Definition head_mask (phase : bool) (w : row) : bool :=
  let '(_, _, w2, _, _) := w in
  if phase then Z.land w2 12288 =? 12288
  else Z.lxor (Z.land w2 12288) 8192 =? 0.

(** [Stripe.heads]: the rows it yields, in directory order. *)
Definition heads (phase : bool) (directory : list row) : list row :=
  let hs := filter nonzero_offset_mask directory in
  filter (head_mask phase) hs.

(** The raw offset of a row, as the directory format defines it. *)
Definition raw_offset (w : row) : Z :=
  let '(w0, w1, _, _, w4) := w in
  Z.lor w0 (Z.lor (Z.shiftl (Z.land w1 255) 16) (Z.shiftl w4 24)).

(** The rows the head iteration is described to yield: nonzero raw
    offset and an in-phase head. *)
Definition heads_described (phase : bool) (directory : list row) : list row :=
  filter (fun w => negb (raw_offset w =? 0) && head_mask phase w) directory.

(** One iteration of [Stripe.firstDocs] (lines 233-252) on the buffer of
    [dirSize(d)] bytes read for a head [d]: [Some (info, data)] gives the
    bytes handed to [Doc.setInfo] (the alternates parser) and to
    [Doc.setData]; [None] when the Doc is skipped. *)
Definition firstDoc_regions (buffer : list byte)
    : result (option (list byte * list byte)) :=
  doc <- Doc_from_buffer (Bytes.py_slice buffer 0 Doc_sizeof);;
  if (doc_magic doc =? Doc_MAGIC) && (0 <? doc_hlen doc) then
    Ok (Some (Bytes.py_slice buffer Doc_sizeof (doc_hlen doc),
              Bytes.py_slice buffer (Doc_sizeof + doc_hlen doc) (doc_length doc)))
  else Ok None.

Section Consumer.

Context {V : Type}.

(** The consumer loop of [parallelStoredObjects] (lines 803-812):
<<
count = 1
while count < numprocs:
    val = q.get()
    if val is None: count += 1
    else: self.objs.append(val); yield val
>>
    [q] lists the items in the order the workers put them ([None] is a
    worker's sentinel).  Returns the values yielded and whether the loop
    exited ([false]: [q.get()] blocks on an empty queue). *)
Fixpoint drain (numprocs count : Z) (q : list (option V)) : list V * bool :=
  if count <? numprocs then
    match q with
    | [] => ([], false)
    | None :: q' => drain numprocs (count + 1) q'
    | Some v :: q' => let '(ys, ok) := drain numprocs count q' in (v :: ys, ok)
    end
  else ([], true).

Definition consume (numprocs : Z) (q : list (option V)) : list V * bool :=
  drain numprocs 1 q.

(** [parallelObjs]: a worker puts its values, then its sentinel. *)
Definition worker_puts (vals : list V) : list (option V) :=
  map Some vals ++ [None].

End Consumer.

(** [self.directory[arg0, arg1, arg2]]: the directory is [None] before
    [readDir] (not subscriptable: [TypeError]) or a two-dimensional
    [numpy] array of shape [(numDirEntries, 5)], which three indices
    overrun ([IndexError]: too many indices for array). *)
Definition directory_index3 (directory : option (list row)) (i j k : Z)
    : result row :=
  match directory with
  | None => Exc TypeError
  | Some _ => Exc IndexError
  end.

(** The selection of the entry in [Stripe.fetch] when it is called with
    three integers (lines 564-569); [Ok None] is [return None]. *)
Definition fetch_dirent (directory : option (list row)) (i j k : Z)
    : result (option row) :=
  try_except (d <- directory_index3 directory i j k;; Ok (Some d))
    [IndexError]
    (fun _ => _ <- Utils.utils_call "log_exc";; Ok None).

End StripeDir.

(* ------------------------------------------------------------------ *)
(** ** [scan/http.py]: [Alternate.requestURL] and the fragment table of
    [Alternate.fromBuffer] *)

Module Http.

(** The [URL] named tuple (eight fields, so always truthy). *)
Record URL := mkURL {
  url_protocol : option string;
  url_user : option string;
  url_passwd : option string;
  url_host : option string;
  url_port : option Z;
  url_path : option string;
  url_params : option string;
  url_query : option string
}.

(** [Alternate.requestHeaders]: [None] until parsed, a [str] when the
    bytes decoded as UTF-8, the raw [bytes] otherwise. *)
Inductive headers :=
| HNone
| HStr (s : string)
| HBytes (b : list byte).

(** What [requestURL] returns. *)
Inductive url_result :=
| RURL (u : URL)
| RStr (s : string)
| RBytes (b : list byte).

Definition chars (s : string) : list ascii := list_ascii_of_string s.

(** [s.index(sub)] on a [str]: the first position, [ValueError] when
    [sub] does not occur. *)
Definition str_index (s sub : string) : result Z :=
  match String.index 0 sub s with
  | Some i => Ok (Z.of_nat i)
  | None => Exc ValueError
  end.

(** [s[::-1]] on a [str]. *)
Definition str_rev (s : string) : string :=
  string_of_list_ascii (rev (chars s)).

(** [self.requestHeaders[-beginning:]] *)
Definition headers_tail (h : headers) (beginning : Z) : result url_result :=
  match h with
  | HNone => Exc TypeError
  | HStr s => Ok (RStr (string_of_list_ascii (Bytes.py_slice_from (chars s) (- beginning))))
  | HBytes b => Ok (RBytes (Bytes.py_slice_from b (- beginning)))
  end.

(** [Alternate.requestURL] (lines 503-515).  [None[::-1]] raises
    [TypeError]; on [bytes], [b[::-1].index('ptth')] raises [TypeError]
    (a [str] argument); on a [str], a missing ["ptth"] raises
    [ValueError].  The handler catches [(IndexError, TypeError)]. *)
Definition requestURL (url : option URL) (requestHeaders : headers)
    : result url_result :=
  match url with
  | Some u => Ok (RURL u)
  | None =>
      r <- try_except
             (match requestHeaders with
              | HNone => Exc TypeError
              | HBytes _ => Exc TypeError
              | HStr s => i <- str_index (str_rev s) "ptth";; Ok (inl (i + 4))
              end)
             [IndexError; TypeError]
             (fun _ => _ <- Utils.utils_call "log_exc";; Ok (inr "Unknown"%string));;
      match r with
      | inr unknown => Ok (RStr unknown)
      | inl beginning => headers_tail requestHeaders beginning
      end
  end.

(** [Alternate.sizeof]: [struct.calcsize("I10i6Pii4?6Pii4?lliP4LP")] with
    native alignment on a 64-bit host, aligned to [sizeof(long)]. *)
Definition Alternate_sizeof : Z := Utils.align 248 8.

(** The outcome of the fragment-table step of [fromBuffer]: the parsing
    of this Alternate goes on with its external fragment offsets, or
    [fromBuffer] bails out ([return current]). *)
Inductive frag_outcome :=
| FragTable (offsets : list Z)
| Bail.

(** Lines 574-585 of [scan/http.py]. *)
Definition frag_table (raw : list byte) (fragOffsetCount : Z)
    : result frag_outcome :=
  let numFrags := if 4 <? fragOffsetCount then fragOffsetCount - 4 else 0 in
  let fragTblSize := numFrags * Utils.POINTER_SIZE in
  if 0 <? fragTblSize then
    try_except
      (offs <- Bytes.unpack_P numFrags (Bytes.py_slice raw Alternate_sizeof fragTblSize);;
       Ok (FragTable offs))
      [StructError]
      (fun _ => _ <- Utils.utils_call "log";;
                _ <- Utils.utils_call "log_exc";;
                Ok Bail)
  else Ok (FragTable []).

End Http.

(* ------------------------------------------------------------------ *)
(** ** [scan/config.py]: [parseVolumeConfig] *)

Module Config.

Import Http.

(** [str.isspace] on the ASCII characters. *)
Definition is_space (c : ascii) : bool :=
  let n := nat_of_ascii c in
  ((9 <=? n) && (n <=? 13))%nat || ((28 <=? n) && (n <=? 32))%nat.

Fixpoint lstrip_chars (cs : list ascii) : list ascii :=
  match cs with
  | c :: t => if is_space c then lstrip_chars t else cs
  | [] => []
  end.

(** [s.strip()] *)
Definition strip (s : string) : string :=
  string_of_list_ascii (rev (lstrip_chars (rev (lstrip_chars (chars s))))).

(** [s.split('\n')] *)
Fixpoint split_nl_chars (cs : list ascii) (cur : list ascii) : list string :=
  match cs with
  | [] => [string_of_list_ascii (rev cur)]
  | c :: t =>
      if Ascii.eqb c "010"%char
      then string_of_list_ascii (rev cur) :: split_nl_chars t []
      else split_nl_chars t (c :: cur)
  end.

Definition split_nl (s : string) : list string := split_nl_chars (chars s) [].

(** [s.startswith(p)], [s.endswith(p)], [sub in s] *)
Definition startswith (p s : string) : bool := String.prefix p s.

Definition endswith (p s : string) : bool := String.prefix (str_rev p) (str_rev s).

Definition contains (sub s : string) : bool :=
  match String.index 0 sub s with Some _ => true | None => false end.

(** [s.index(sub, start)] *)
Definition index_from (s sub : string) (start : Z) : result Z :=
  match String.index (Z.to_nat start) sub s with
  | Some i => Ok (Z.of_nat i)
  | None => Exc ValueError
  end.

(** [s[a:b]] and [s[a:]] on a [str]. *)
Definition sslice (s : string) (a b : Z) : string :=
  string_of_list_ascii (Bytes.py_slice (chars s) a b).

Definition sslice_from (s : string) (a : Z) : string :=
  string_of_list_ascii (Bytes.py_slice_from (chars s) a).

(** [s.lower()] on ASCII. *)
Definition lower_char (c : ascii) : ascii :=
  let n := nat_of_ascii c in
  if ((65 <=? n) && (n <=? 90))%nat then ascii_of_nat (n + 32) else c.

Definition lower (s : string) : string :=
  string_of_list_ascii (map lower_char (chars s)).

(** [int(s)] on a [str]: surrounding white space, an optional sign, and
    decimal digits with single underscores between them. *)
Definition digit_val (c : ascii) : option Z :=
  let n := nat_of_ascii c in
  if ((48 <=? n) && (n <=? 57))%nat then Some (Z.of_nat n - 48) else None.

Fixpoint parse_digits (cs : list ascii) (acc : Z) (after_us : bool) : option Z :=
  match cs with
  | [] => if after_us then None else Some acc
  | c :: t =>
      if Ascii.eqb c "_"%char then
        if after_us then None else parse_digits t acc true
      else match digit_val c with
           | Some d => parse_digits t (10 * acc + d) false
           | None => None
           end
  end.

Definition parse_unsigned (cs : list ascii) : option Z :=
  match cs with
  | c :: t => match digit_val c with
              | Some d => parse_digits t d false
              | None => None
              end
  | [] => None
  end.

Definition py_int (s : string) : result Z :=
  let cs := chars (strip s) in
  let r := match cs with
           | c :: t => if Ascii.eqb c "-"%char then option_map Z.opp (parse_unsigned t)
                       else if Ascii.eqb c "+"%char then parse_unsigned t
                       else parse_unsigned cs
           | [] => None
           end in
  match r with Some z => Ok z | None => Exc ValueError end.

(** Python values compared by [in] on a list: an [int] never equals a
    [str]. *)
Inductive pyval := PInt (z : Z) | PStr (s : string).

Definition py_eq (a b : pyval) : bool :=
  match a, b with
  | PInt x, PInt y => x =? y
  | PStr x, PStr y => String.eqb x y
  | _, _ => false
  end.

Definition py_in (x : pyval) (l : list pyval) : bool := existsb (py_eq x) l.

(** The dictionary [ret]: volume number to [(CacheType, size in bytes)]. *)
Abbreviation volumes := (gmap Z (Utils.CacheType * Z)).

Section VolumeConfig.

(** [INK_MD5_SIZE()] under the global [FIPS] flag. *)
Definition INK_MD5_SIZE (FIPS : bool) : Z := if FIPS then 32 else 16.

(** Whether [STORAGE_CONFIG] is non-empty, and [totalCacheSizeAvailable()]. *)
Variable storage_loaded : bool.
Variable totalCacheSizeAvailable : Z.

(** The body of the loop of [parseVolumeConfig] (lines 345-392) for one
    line; [contents] is the list of lines the loop runs over. *)
Definition volume_line (contents : list string) (st : volumes * Z) (line : string)
    : result (volumes * Z) :=
  let '(ret, totalPercent) := st in
  let line := strip line in
  if startswith "#" line || negb (contains "volume=" line) then Ok st else
  _ <- Utils.utils_call "log";;
  position <- index_from line "volume=" 0;;
  sp <- index_from line " " position;;
  volumeNo <- py_int (sslice line (position + 7) sp);;
  if py_in (PInt volumeNo) (map PStr contents) then Exc ConfigException else
  position <- index_from line "size=" 0;;
  size <- try_except (sp <- index_from line " " position;; Ok (sslice line (position + 5) sp))
            [ValueError] (fun _ => Ok (sslice_from line (position + 5)));;
  let size := lower size in
  sz <- (if endswith "%" size then
           _ <- Utils.utils_call "log";;
           if negb storage_loaded then Exc ConfigException else
           n <- py_int (sslice size 0 (-1));;
           let tp := totalPercent + n in
           if 100 <? tp then Exc ConfigException else
           b <- StripeRead.floordiv (n * totalCacheSizeAvailable) 100;;
           Ok (b, tp)
         else n <- py_int size;; Ok (n * 1048576, totalPercent));;
  let '(bytes, tp) := sz in
  _ <- Utils.utils_call "log";;
  Ok (<[volumeNo := (Utils.HTTP, bytes)]> ret, tp).

Fixpoint volume_lines (contents : list string) (st : volumes * Z) (lines : list string)
    : result (volumes * Z) :=
  match lines with
  | [] => Ok st
  | l :: t => st' <- volume_line contents st l;; volume_lines contents st' t
  end.

(** [parseVolumeConfig(contents)] *)
Definition parseVolumeConfig (contents : string) : result volumes :=
  let lines := split_nl (strip contents) in
  r <- volume_lines lines (∅, 0) lines;;
  Ok (fst r).

End VolumeConfig.

End Config.

(* ------------------------------------------------------------------ *)
(** ** Native [struct] formats *)

Module Struct.

(** The format characters the package uses.  In native mode (no prefix
    character) every item is aligned to its own size, and no padding
    follows the last item; the sizes are those of the x86-64 hosts the
    tool targets.  [cx] is a pad byte, [cbool] is [?]. *)
Inductive code := cx | cB | cH | ch | cI | ci | cl | cL | cQ | cq | cP | cbool.

Definition size (c : code) : Z :=
  match c with
  | cx | cB | cbool => 1
  | cH | ch => 2
  | cI | ci => 4
  | cl | cL | cQ | cq | cP => 8
  end.

Definition signed (c : code) : bool :=
  match c with ch | ci | cl | cq => true | _ => false end.

(** A format string as its repeat counts and codes: ["5IQ"] is
    [[(5, cI); (1, cQ)]]. *)
Definition format := list (nat * code).

Definition expand (f : format) : list code :=
  flat_map (fun '(n, c) => repeat c n) f.

(** The offset of every item. *)
Fixpoint layout_from (off : Z) (cs : list code) : list (Z * code) :=
  match cs with
  | [] => []
  | c :: t =>
      let o := Utils.align off (size c) in (o, c) :: layout_from (o + size c) t
  end.

Fixpoint end_from (off : Z) (cs : list code) : Z :=
  match cs with
  | [] => off
  | c :: t => end_from (Utils.align off (size c) + size c) t
  end.

(** [struct.calcsize(fmt)] *)
Definition calcsize (f : format) : Z := end_from 0 (expand f).

(** The value of one item: little-endian, two's complement for the
    signed codes, [True]/[False] (as 1/0) for [?]. *)
Definition decode (bs : list byte) (oc : Z * code) : Z :=
  let '(o, c) := oc in
  let v := Bytes.le_int (Bytes.py_slice bs o (o + size c)) in
  match c with
  | cbool => if v =? 0 then 0 else 1
  | _ => if signed c && (2 ^ (8 * size c - 1) <=? v) then v - 2 ^ (8 * size c) else v
  end.

Definition is_pad (oc : Z * code) : bool :=
  match snd oc with cx => false | _ => true end.

(** [struct.unpack(fmt, bs)]: [struct.error] unless [bs] holds exactly
    [calcsize(fmt)] bytes; pad bytes yield no value. *)
Definition unpack (f : format) (bs : list byte) : result (list Z) :=
  if Z.of_nat (length bs) =? calcsize f then
    Ok (map (decode bs) (filter is_pad (layout_from 0 (expand f))))
  else Exc StructError.

End Struct.

(* ------------------------------------------------------------------ *)
(** ** [utils.unpacklong] *)

Module UtilsFns.

(** [unpacklong(raw)]: the two native 32-bit halves, the high one first;
    the [struct.error] handler prints the traceback and raises
    [ValueError]. *)
Definition unpacklong (raw : list byte) : result Z :=
  r <- try_except (Struct.unpack [(2%nat, Struct.cI)] raw) [StructError]
         (fun _ => Exc ValueError);;
  match r with
  | [upper; lower] => Ok (16 ^ 8 * upper + lower)
  | _ => Exc ValueError
  end.

End UtilsFns.

(* ------------------------------------------------------------------ *)
(** ** [span.DiskHeader] and the header step of [Span.__init__] *)

Module DiskHdr.

Record DiskHeader := mkDiskHeader {
  dh_volumes : Z;
  dh_free : Z;
  dh_used : Z;
  dh_diskvolBlocks : Z;
  dh_blocks : Z
}.

(** [DiskHeader.BASIC_FORMAT = "5IQ"], [MAGIC = 0xABCD1237],
    [OFFSET = 0x2000] and [sizeof]. *)
Definition BASIC_FORMAT : Struct.format := [(5%nat, Struct.cI); (1%nat, Struct.cQ)].
Definition MAGIC : Z := 2882343479.
Definition OFFSET : Z := 8192.
Definition sizeof : Z := Struct.calcsize BASIC_FORMAT.

(** [DiskHeader(raw_data)] (lines 158-180 of [scan/span.py]). *)
Definition DiskHeader_init (raw_data : list byte) : result DiskHeader :=
  r <- try_except (Struct.unpack BASIC_FORMAT raw_data) [StructError]
         (fun _ => _ <- Utils.utils_call "log";;
                   _ <- Utils.utils_call "log_exc";;
                   Exc ValueError);;
  match r with
  | [magic; volumes; free; used; diskvolBlocks; blocks] =>
      _ <- Utils.utils_call "log";;
      if negb (magic =? MAGIC) then _ <- Utils.utils_call "log";; Exc ValueError
      else Ok (mkDiskHeader volumes free used diskvolBlocks blocks)
  | _ => Exc ValueError
  end.

(** Lines 40-46 of [Span.__init__]: [raw] is what
    [spanFile.read(DiskHeader.sizeof)] returns at [OFFSET]. *)
Definition span_header (raw : list byte) : result DiskHeader :=
  try_except (DiskHeader_init raw) [ValueError]
    (fun _ => _ <- Utils.utils_call "log_exc";; Exc ValueError).

End DiskHdr.

(* ------------------------------------------------------------------ *)
(** ** [stripe.SpanBlockHeader] *)

Module SpanBlock.

(** The attributes [SpanBlockHeader.__init__] sets, but [avgObjSize],
    which it copies from [config.settings()]. *)
Record SpanBlockHeader := mkSpanBlockHeader {
  sbh_offset : Z;
  sbh_length : Z;
  sbh_number : Z;
  sbh_Type : Utils.CacheType;
  sbh_free : bool
}.

(** [SpanBlockHeader(raw_data)] on a tuple of four integers. *)
Definition SpanBlockHeader_init (raw_data : Z * Z * Z * Z) : result SpanBlockHeader :=
  let '(offset, length, number, typeFree) := raw_data in
  _ <- Utils.utils_call "log";;
  ty <- Utils.CacheType_of (Z.land typeFree 7);;
  Ok (mkSpanBlockHeader offset length number ty (Z.land typeFree 8 =? 8)).

(** [SpanBlockHeader.BASIC_FORMAT = "QQiI"], and the constructor on
    [bytes] ([struct.error] is not caught). *)
Definition BASIC_FORMAT : Struct.format :=
  [(2%nat, Struct.cQ); (1%nat, Struct.ci); (1%nat, Struct.cI)].

Definition SpanBlockHeader_of_bytes (raw_data : list byte) : result SpanBlockHeader :=
  r <- Struct.unpack BASIC_FORMAT raw_data;;
  match r with
  | [offset; length; number; typeFree] =>
      SpanBlockHeader_init (offset, length, number, typeFree)
  | _ => Exc ValueError
  end.

(** [bool(header)] and [len(header)]. *)
Definition SpanBlockHeader_bool (h : SpanBlockHeader) : bool := negb (sbh_free h).
Definition SpanBlockHeader_len (h : SpanBlockHeader) : Z :=
  sbh_length h * Utils.STORE_BLOCK_SIZE.

End SpanBlock.

(* ------------------------------------------------------------------ *)
(** ** [directory.DirEntry]: construction from bytes and comparison *)

Module DirEntries.

Import Directory.

(** [DirEntry.BASIC_FORMAT = "HHHHH"] *)
Definition BASIC_FORMAT : Struct.format := [(5%nat, Struct.cH)].

(** [DirEntry(raw)] (lines 120-149 of [scan/directory.py]). *)
Definition DirEntry_new (raw : list byte) : result DirEntry :=
  if negb (Z.of_nat (length raw) =? Struct.calcsize BASIC_FORMAT) then Exc ValueError else
  w <- Struct.unpack BASIC_FORMAT raw;;
  match w with
  | [w0; w1; w2; w3; w4] => Ok (DirEntry_init (w0, w1, w2, w3, w4))
  | _ => Exc IndexError
  end.

(** [struct.pack("5H", *w)], as the repository's test builds an entry. *)
Definition pack_row (w : row) : list byte :=
  let '(w0, w1, w2, w3, w4) := w in
  Bytes.pack_le 2 w0 ++ Bytes.pack_le 2 w1 ++ Bytes.pack_le 2 w2 ++
  Bytes.pack_le 2 w3 ++ Bytes.pack_le 2 w4.

(** [self == other] for two entries (the identity shortcut returns
    [True], which the field comparison also gives). *)
Definition DirEntry_eq (self other : DirEntry) : bool :=
  (de__offset other =? de__offset self) && (de_tag other =? de_tag self) &&
  Bool.eqb (de_head other) (de_head self) &&
  Bool.eqb (de_pinned other) (de_pinned self) &&
  Bool.eqb (de_phase other) (de_phase self).

(** A half-word of the directory array. *)
Definition u16 (x : Z) : Prop := 0 <= x < 65536.

Definition row_u16 (w : row) : Prop :=
  let '(w0, w1, w2, w3, w4) := w in u16 w0 /\ u16 w1 /\ u16 w2 /\ u16 w3 /\ u16 w4.

End DirEntries.

(* ------------------------------------------------------------------ *)
(** ** [Stripe.getSegment], [Stripe.getBucket], [Stripe.fetchWithFile] *)

Module StripeGet.

Import Directory.

(** [self.directory[a:b]] on the read directory, one [DirEntry] per
    row ([DirEntry(bytearray(d))] re-reads the row's ten bytes). *)
Definition dir_rows (directory : list row) (a b : Z) : list DirEntry :=
  map DirEntry_init (Bytes.py_slice directory a b).

(** [getSegment(index)] (lines 496-507). *)
Definition getSegment (directory : list row) (numDirEntries numSegs index : Z)
    : result (list DirEntry) :=
  seglen <- StripeRead.floordiv numDirEntries numSegs;;
  let index := index * seglen in
  Ok (dir_rows directory index (index + seglen)).

(** [getBucket(segment, bucket)] (lines 509-520). *)
Definition getBucket (directory : list row) (numSegs numBuckets segment bucket : Z)
    : result (list DirEntry) :=
  q <- StripeRead.floordiv (segment * numSegs) numBuckets;;
  let index := 4 * (q + bucket) in
  Ok (dir_rows directory index (index + 4)).

(** A Python object that a call expression may target: [Doc.sizeof] is
    the [int] [struct.calcsize(...)], and calling an [int] raises
    [TypeError]. *)
Inductive pyobj :=
| OInt (z : Z)
| OFunc (f : list Z -> result Z).

Definition py_call (o : pyobj) (args : list Z) : result Z :=
  match o with
  | OInt _ => Exc TypeError
  | OFunc f => f args
  end.

Definition Doc_sizeof_attr : pyobj := OInt Doc_sizeof.

(** [fetchWithFile(d, strict)] (lines 600-647) on an open file, where
    [docbuff] is the [bytearray(len(d))] filled by [readinto]: [None],
    or the Doc with the bytes handed to [setInfo] (if any) and to
    [setData]. *)
Definition fetchWithFile (docbuff : list byte) (strict : bool)
    : result (option (Doc * option (list byte) * list byte)) :=
  let dhead := Bytes.py_slice docbuff 0 Doc_sizeof in
  r <- try_except (doc <- Doc_from_buffer dhead;; Ok (Some doc)) [ValueError]
         (fun _ => _ <- Utils.utils_call "log_exc";; Ok None);;
  match r with
  | None => Ok None
  | Some doc =>
      sz <- py_call Doc_sizeof_attr [];;
      let docbuff := Bytes.py_slice docbuff sz (doc_length doc) in
      if 0 <? doc_hlen doc then
        Ok (Some (doc, Some (Bytes.py_slice docbuff 0 (doc_hlen doc)),
                  Bytes.py_slice_from docbuff (doc_hlen doc)))
      else if strict then Ok None
      else Ok (Some (doc, None, Bytes.py_slice_from docbuff (doc_hlen doc)))
  end.

End StripeGet.

(* ------------------------------------------------------------------ *)
(** ** [scan/http.py]: header heaps, [Alternate.__init__], the first
    steps of [Alternate.fromBuffer], and [URLtoString] *)

Module HttpMore.

Import Http.

(** [HdrHeapObjImpl(Type, length, flags)] *)
Record HdrHeapObjImpl := mkHdrHeapObjImpl {
  ho_Type : Z;
  ho_length : Z;
  ho_flags : Z
}.

(** [unpackHdrHeapObjImpl(obj)] (lines 267-286): [struct.unpack("=B2sB", obj)]
    takes exactly four bytes; the 20-bit length is the 16-bit field plus
    the low nibble of the last byte, the flags its high nibble. *)
Definition unpackHdrHeapObjImpl (obj : list byte) : result HdrHeapObjImpl :=
  if negb (Z.of_nat (length obj) =? 4) then Exc StructError else
  let t := Bytes.le_int (Bytes.py_slice obj 0 1) in
  let l := Bytes.py_slice obj 1 3 in
  let f := Bytes.le_int (Bytes.py_slice obj 3 4) in
  let flags := Z.shiftr (Z.land 240 f) 4 in
  l16 <- (if Z.of_nat (length l) =? 2 then Ok (Bytes.le_int l) else Exc StructError);;
  Ok (mkHdrHeapObjImpl t (l16 + Z.shiftl (Z.land f 15) 16) flags).

(** What [unpackHeap] stores beside each object: the field list an
    [UNPACK_FUNCS] entry returns, or the one-[bytes] tuple of the
    generic ["%ds"] unpack. *)
Inductive payload :=
| PInts (l : list Z)
| PBytes (b : list byte).

Section UnpackHeap.

(** [UNPACK_FUNCS]: the unpacker registered for an object type, reading
    the heap from an offset (its effect on the [HTTPHdr] is not
    recorded). *)
Variable unpack_funcs : Z -> option (list byte -> Z -> result (list Z)).

(** The body of the [while] loop of [unpackHeap] (lines 659-671), up to
    the new offset. *)
Definition unpackHeap_body (heap : list byte) (offset : Z)
    : result (HdrHeapObjImpl * payload) :=
  o <- unpackHdrHeapObjImpl (Bytes.py_slice heap offset (offset + 4));;
  p <- match unpack_funcs (ho_Type o) with
       | Some f => l <- f heap (offset + 4);; Ok (PInts l)
       | None =>
           (* "%ds" % (length - 4): a negative count is a bad format *)
           let n := ho_length o - 4 in
           if n <? 0 then Exc StructError else
           let bs := Bytes.py_slice heap (offset + 4) (offset + 4 + n) in
           if Z.of_nat (length bs) =? n then Ok (PBytes bs) else Exc StructError
       end;;
  Ok (o, p).

(** [unpackHeap(heap, offset, size, http)] (lines 647-685), run for at
    most [fuel] iterations: [None] when the loop has not exited by then. *)
Fixpoint unpackHeap (fuel : nat) (heap : list byte) (offset size : Z)
    (ret : list (HdrHeapObjImpl * payload))
    : option (result (list (HdrHeapObjImpl * payload))) :=
  match fuel with
  | O => None
  | S fuel' =>
      if offset <? size then
        match try_except (r <- unpackHeap_body heap offset;; Ok (Some r))
                [StructError; UnicodeError]
                (fun _ => _ <- Utils.utils_call "log";;
                          _ <- Utils.utils_call "log_exc";;
                          _ <- Utils.utils_call "log";;
                          Ok None) with
        | Exc e => Some (Exc e)
        | Ok None => Some (Ok ret)
        | Ok (Some (o, p)) =>
            unpackHeap fuel' heap (Utils.align (offset + ho_length o) Utils.POINTER_SIZE)
              size (ret ++ [(o, p)])
        end
      else Some (Ok ret)
  end.

End UnpackHeap.

(** [HDRHeap.BASIC_FORMAT()]: the header, three read-only heap
    descriptors and the last [int], padded to a pointer boundary. *)
Definition HDRHeap_veryBasic : Struct.format :=
  [(1%nat, Struct.cI); (2%nat, Struct.cP); (1%nat, Struct.cI); (1%nat, Struct.cbool);
   (1%nat, Struct.cP); (1%nat, Struct.cI); (1%nat, Struct.cP);
   (2%nat, Struct.cP); (1%nat, Struct.ci); (1%nat, Struct.cbool);
   (2%nat, Struct.cP); (1%nat, Struct.ci); (1%nat, Struct.cbool);
   (2%nat, Struct.cP); (1%nat, Struct.ci); (1%nat, Struct.cbool);
   (1%nat, Struct.ci)].

Definition HDRHeap_BASIC_FORMAT : Struct.format :=
  let veryBasicSize := Struct.calcsize HDRHeap_veryBasic in
  HDRHeap_veryBasic ++
  [(Z.to_nat (Utils.align veryBasicSize (Struct.calcsize [(1%nat, Struct.cP)]) - veryBasicSize),
    Struct.cx)].

Definition HDRHeap_sizeof : Z := Struct.calcsize HDRHeap_BASIC_FORMAT.

(** [HDRHeap.MAGIC = 0xDCBAFEED] *)
Definition HDRHeap_MAGIC : Z := 3703242477.

Record HDRHeap := mkHDRHeap {
  hh_magic : Z;
  hh_freeStart : Z;
  hh_dataStart : Z;
  hh_size : Z;
  hh_writeable : Z;
  hh_next : Z;
  hh_freeSize : Z;
  hh_rwheap : Z;
  hh_ronlyHeaps : list (list Z);
  hh_lostStrSpace : Z
}.

(** [HDRHeap(raw)] (lines 106-133). *)
Definition HDRHeap_init (raw : list byte) : result HDRHeap :=
  r <- try_except (Struct.unpack HDRHeap_BASIC_FORMAT raw) [StructError]
         (fun _ => _ <- Utils.utils_call "log_exc";; Exc ValueError);;
  r0 <- StripeRead.py_index r 0;;
  if negb (r0 =? HDRHeap_MAGIC) then Exc ValueError else
  r1 <- StripeRead.py_index r 1;; r2 <- StripeRead.py_index r 2;;
  r3 <- StripeRead.py_index r 3;; r4 <- StripeRead.py_index r 4;;
  r5 <- StripeRead.py_index r 5;; r6 <- StripeRead.py_index r 6;;
  r7 <- StripeRead.py_index r 7;; r20 <- StripeRead.py_index r 20;;
  Ok (mkHDRHeap r0 r1 r2 r3 r4 r5 r6 r7
        [Bytes.py_slice r 8 12; Bytes.py_slice r 12 16; Bytes.py_slice r 16 20] r20).

(** [HDRHeap.verify()] (lines 178-202); a descriptor is
    [(ptr, start, length, locked)]. *)
Definition desc_field (d : list Z) (i : nat) : Z := nth i d 0.

Definition HDRHeap_verify (h : HDRHeap) : bool :=
  if negb (hh_magic h =? HDRHeap_MAGIC) then false
  else if negb (hh_writeable h =? 0) then false
  else
    let ro i := nth i (hh_ronlyHeaps h) [] in
    negb (existsb (fun x => negb (x =? 0))
            [hh_freeStart h; hh_next h; hh_freeSize h; hh_rwheap h;
             desc_field (ro 0%nat) 0; desc_field (ro 1%nat) 1; desc_field (ro 2%nat) 1]).

(** [Alternate.MAGIC], [MAGIC_ALIVE], [MAGIC_DEAD] *)
Definition Alternate_MAGIC : Z := 3703234285.       (* 0xDCBADEED *)
Definition Alternate_MAGIC_ALIVE : Z := 2882395885. (* 0xABCDDEED *)
Definition Alternate_MAGIC_DEAD : Z := 233496301.   (* 0x0DEADEED *)

(** [Alternate.BASIC_FORMAT = "I10i6Pii4?6Pii4?lliP4LP"] *)
Definition Alternate_FORMAT : Struct.format :=
  [(1%nat, Struct.cI); (10%nat, Struct.ci);
   (6%nat, Struct.cP); (2%nat, Struct.ci); (4%nat, Struct.cbool);
   (6%nat, Struct.cP); (2%nat, Struct.ci); (4%nat, Struct.cbool);
   (2%nat, Struct.cl); (1%nat, Struct.ci); (1%nat, Struct.cP);
   (4%nat, Struct.cL); (1%nat, Struct.cP)].

(** The attributes of an [Alternate] the parsing reads back. *)
Record Alternate := mkAlternate {
  alt_magic : Z;
  alt_request : list Z;
  alt_response : list Z;
  alt_fragOffsetCount : Z;
  alt_integralFragOffsets : list Z;
  alt_fragmentOffsets : list Z
}.

(** [HTTPHdr( *args)]: the twelve-name tuple assignment raises
    [ValueError] on any other count. *)
Definition HTTPHdr_args (args : list Z) : result (list Z) :=
  if Nat.eqb (length args) 12 then Ok args else Exc ValueError.

(** [Alternate(basicData)] (lines 434-479). *)
Definition Alternate_init (basicData : list Z) : result Alternate :=
  magic <- StripeRead.py_index basicData 0;;
  _ <- (if magic =? Alternate_MAGIC then Ok tt
   else if magic =? Alternate_MAGIC_ALIVE then Ok tt
   else if magic =? Alternate_MAGIC_DEAD then Ok tt
   else Exc ValueError);;
  _ <- StripeRead.py_index basicData 1;; _ <- StripeRead.py_index basicData 2;;
  _ <- StripeRead.py_index basicData 3;; _ <- StripeRead.py_index basicData 4;;
  request <- HTTPHdr_args (Bytes.py_slice basicData 11 23);;
  response <- HTTPHdr_args (Bytes.py_slice basicData 23 35);;
  _ <- StripeRead.py_index basicData 35;; _ <- StripeRead.py_index basicData 36;;
  fragOffsetCount <- StripeRead.py_index basicData 37;;
  _ <- StripeRead.py_index basicData 38;;
  Ok (mkAlternate magic request response fragOffsetCount
        (Bytes.py_slice basicData 39 43) []).

Section FromBuffer.

(** The rest of [fromBuffer] after the fragment table (lines 587-644:
    the header heaps, the header strings and the recursive call), given
    the buffer, the Alternate read so far and [current]. *)
Variable after_frags : list byte -> Alternate -> list Alternate -> result (list Alternate).

(** [Alternate.fromBuffer(raw, current)] up to the fragment table
    (lines 558-585). *)
Definition fromBuffer (raw : list byte) (current : list Alternate)
    : result (list Alternate) :=
  match raw with
  | [] => Ok current
  | _ =>
      basicData <- Struct.unpack Alternate_FORMAT (Bytes.py_slice raw 0 Alternate_sizeof);;
      r <- try_except (l <- Alternate_init basicData;; Ok (Some l)) [ValueError]
             (fun _ => Ok None);;
      match r with
      | None => Ok current
      | Some latest =>
          f <- frag_table raw (alt_fragOffsetCount latest);;
          match f with
          | Bail => Ok current
          | FragTable offs =>
              after_frags raw
                {| alt_magic := alt_magic latest; alt_request := alt_request latest;
                   alt_response := alt_response latest;
                   alt_fragOffsetCount := alt_fragOffsetCount latest;
                   alt_integralFragOffsets := alt_integralFragOffsets latest;
                   alt_fragmentOffsets := offs |} current
          end
      end
  end.

(** One iteration of [Stripe.firstDocs] (lines 234-252) on the buffer
    read for a head: [Doc.setInfo] is [Alternate.fromBuffer(info, [])],
    and a [struct.error] is caught by a handler that logs with
    [utils.log] and then [utils.log_exc].  [Some] is a yielded Doc with
    its alternates and data. *)
Definition firstDoc_step (buffer : list byte)
    : result (option (Directory.Doc * list Alternate * list byte)) :=
  doc <- Directory.Doc_from_buffer (Bytes.py_slice buffer 0 Directory.Doc_sizeof);;
  if (Directory.doc_magic doc =? Directory.Doc_MAGIC) && (0 <? Directory.doc_hlen doc) then
    try_except
      (alts <- fromBuffer (Bytes.py_slice buffer Directory.Doc_sizeof (Directory.doc_hlen doc)) [];;
       Ok (Some (doc, alts,
                 Bytes.py_slice buffer (Directory.Doc_sizeof + Directory.doc_hlen doc)
                   (Directory.doc_length doc))))
      [StructError]
      (fun _ => _ <- Utils.utils_call "log";; _ <- Utils.utils_call "log_exc";; Ok None)
  else Ok None.

End FromBuffer.

(** [''.join(parts)]: every part must be a [str]; [None] raises
    [TypeError]. *)
Fixpoint str_join (parts : list (option string)) : result string :=
  match parts with
  | [] => Ok EmptyString
  | None :: _ => Exc TypeError
  | Some s :: t => r <- str_join t;; Ok (s ++ r)%string
  end.

(** Truthiness of an optional [str] field. *)
Definition str_truthy (o : option string) : bool :=
  match o with Some s => negb (String.eqb s EmptyString) | None => false end.

(** [URLtoString(url)] (lines 56-76); [str(port)] is the decimal
    numeral. *)
Definition URLtoString (url : URL) : result string :=
  let ret := [url_protocol url; Some "://"%string] in
  let ret :=
    if str_truthy (url_user url) && str_truthy (url_passwd url) then
      ret ++ [url_user url; Some ":"%string; url_passwd url; Some "@"%string]
    else if str_truthy (url_user url) then ret ++ [url_user url; Some "@"%string]
    else if str_truthy (url_passwd url) then
      ret ++ [Some ":"%string; url_passwd url; Some "@"%string]
    else ret in
  let ret := ret ++ [url_host url] in
  let ret :=
    match url_port url with
    | Some p => if p =? 0 then ret else ret ++ [Some ":"%string; Some (pretty p)]
    | None => ret
    end in
  let ret := if str_truthy (url_path url) then ret ++ [Some "/"%string; url_path url] else ret in
  str_join ret.

End HttpMore.

(* ------------------------------------------------------------------ *)
(** ** Concrete inputs *)

(** A stripe as [Span.__init__] constructs it from the header of the
    repository's own test cache (offset and length [0x4000]), and a file
    whose copy B is valid and newer than copy A. *)
Definition c1_stripe : StripeRead.stripe :=
  match StripeRead.construct (16384, 16384, 0, 1) with
  | Ok s => s
  | Exc _ => {| StripeRead.st_offset := 0; StripeRead.st_length := 0;
                StripeRead.st_numSegs := 0; StripeRead.st_contentOffset := 0;
                StripeRead.st_directoryOffset := 0; StripeRead.st_version := (0, 0);
                StripeRead.st_createTime := 0; StripeRead.st_writeCursor := 0;
                StripeRead.st_lastWritePos := 0; StripeRead.st_aggPos := 0;
                StripeRead.st_generation := 0; StripeRead.st_phase := false;
                StripeRead.st_cycle := 0; StripeRead.st_syncSerial := 0;
                StripeRead.st_writeSerial := 0; StripeRead.st_dirty := 0;
                StripeRead.st_sectorSize := 0; StripeRead.st_unused := 0;
                StripeRead.st_validityLimit := 0 |}
  end.

Definition c1_header (sync_serial : Z) : list Z :=
  [StripeRead.MAGIC; 24; 0; 0; 393216; 393216; 393216; 0; 0; 0;
   sync_serial; 0; 0; 4096; 0].

Definition c1_disk (o : Z) : list Z :=
  if o =? 16384 then c1_header 0 else c1_header 1.

(** A stripe header whose type field is 3, which [utils.CacheType]
    rejects, and the header of the test cache. *)
Definition c2_bad_header : Z * Z * Z * Z := (16384, 16384, 0, 3).
Definition c2_good_header : Z * Z * Z * Z := (16384, 16384, 0, 1).

(** An in-use, in-phase head (stripe phase off) whose offset half-words
    [w[0] = 0x8000] and [w[4] = 0x8000] sum to [0x10000]. *)
Definition c3_row : Directory.row := (32768, 0, 8192, 0, 32768).

(** A Doc of 300 bytes with 100 bytes of alternates, in a 512-byte read. *)
Definition c4_buffer : list byte :=
  Bytes.pack_le 4 Directory.Doc_MAGIC ++ Bytes.pack_le 4 300 ++ Bytes.pack_le 8 300 ++
  repeat x00 32 ++ Bytes.pack_le 4 100 ++ repeat x00 20 ++ repeat x00 440.

Definition c8_contents : string :=
  "volume=1 scheme=http size=10
volume=1 scheme=http size=20".

(** [struct.pack("5H", 0xA000, 0, 0x2FFF, 0, 0)] *)
Definition c9_raw : list byte :=
  Bytes.pack_le 2 40960 ++ Bytes.pack_le 2 0 ++ Bytes.pack_le 2 12287 ++
  Bytes.pack_le 2 0 ++ Bytes.pack_le 2 0.

(** A stripe of 3 bytes: smaller than one store block. *)
Definition x_small_stripe : StripeRead.stripe :=
  {| StripeRead.st_offset := 16384; StripeRead.st_length := 3;
     StripeRead.st_numSegs := -1; StripeRead.st_contentOffset := -1;
     StripeRead.st_directoryOffset := -1; StripeRead.st_version := (-1, -1);
     StripeRead.st_createTime := -1; StripeRead.st_writeCursor := -1;
     StripeRead.st_lastWritePos := -1; StripeRead.st_aggPos := -1;
     StripeRead.st_generation := -1; StripeRead.st_phase := true;
     StripeRead.st_cycle := -1; StripeRead.st_syncSerial := -1;
     StripeRead.st_writeSerial := -1; StripeRead.st_dirty := -1;
     StripeRead.st_sectorSize := -1; StripeRead.st_unused := -1;
     StripeRead.st_validityLimit := -1 |}.

(** The three magic values accepted by [Alternate.__init__]. *)
Definition Alternate_magics : list Z :=
  [HttpMore.Alternate_MAGIC; HttpMore.Alternate_MAGIC_ALIVE; HttpMore.Alternate_MAGIC_DEAD].

(** A table of unpackers with one entry, for type 2, returning no objects. *)
Definition x_heap_funcs (t : Z) : option (list byte -> Z -> result (list Z)) :=
  if t =? 2 then Some (fun _ _ => Ok []) else None.

(** The invariant kept by one line of the loop of [parseVolumeConfig]. *)
Definition volumes_inv (ret : Config.volumes) (tp : Z) : Prop :=
  tp <= 100 /\ forall k v, ret !! k = Some v -> fst v = Utils.HTTP.

(** One volume definition of 10 MiB. *)
Definition x_volume_line : string := "volume=1 scheme=http size=10".

(** Whether the loop of [parseVolumeConfig] skips a line: a comment, or a
    line with no [volume=]. *)
Definition skipped_line (line : string) : bool :=
  Config.startswith "#" (Config.strip line) || negb (Config.contains "volume=" (Config.strip line)).

(** A [volume.config] with a comment, a blank line and no definition. *)
Definition x_comment_config : string :=
  "# volume=1 scheme=http size=10
  
storage=none".

(* ================================================================== *)
(** * Properties *)

(** ** Evaluation lemmas *)

Lemma bind_Exc {A B} (e : exn) (k : A -> result B) : bind (Exc e) k = Exc e.
Proof. reflexivity. Qed.

Lemma bind_Ok {A B} (a : A) (k : A -> result B) : bind (Ok a) k = k a.
Proof. reflexivity. Qed.

(** [utils] binds no [log_exc]: the attribute lookup raises. *)
Lemma utils_log_exc_missing : Utils.utils_call "log_exc" = Exc AttributeError.
Proof. reflexivity. Qed.

Lemma utils_log_exists : Utils.utils_call "log" = Ok tt.
Proof. reflexivity. Qed.

(** In [Stripe.read], [this] is neither local, global nor builtin. *)
Lemma this_unbound :
  lookup_name StripeRead.read_locals StripeRead.stripe_globals "this" = Exc NameError.
Proof. reflexivity. Qed.

(* ------------------------------------------------------------------ *)
(** ** C1: the selection of the metadata copy in [Stripe.read] *)

(** C1.  Once both headers are unpacked, [Stripe.read] evaluates
    [B[0] == this.MAGIC]: the name [this] is unbound in [scan/stripe.py],
    so the selection raises [NameError] and no stripe is ever populated,
    whatever the two copies hold. *)
Theorem stripe_read_selection_raises :
  forall (avgObjSize : Z) (disk : Z -> list Z) (s : StripeRead.stripe),
    (forall o, disk o <> []) ->
    StripeRead.read avgObjSize disk s = Exc NameError \/
    StripeRead.read avgObjSize disk s = Exc ZeroDivisionError.
Proof.
  intros avg disk s Hdisk.
  unfold StripeRead.read.
  destruct (StripeRead.SORdirSize avg (StripeRead.st_offset s)
              (StripeRead.st_length s * Utils.STORE_BLOCK_SIZE)) as [[[b g] c] | e] eqn:Hsor.
  - left. cbn [bind]. unfold StripeRead.read_select.
    set (oB := Utils.align _ _).
    destruct (disk oB) as [|b0 Bt] eqn:HB; [exfalso; exact (Hdisk oB HB)|].
    reflexivity.
  - right. cbn [bind].
    (* the geometry computation raises only on a zero divisor *)
    unfold StripeRead.SORdirSize, StripeRead.singleStep, StripeRead.floordiv in Hsor.
    repeat match type of Hsor with
           | context [if ?c then _ else _] => destruct c; cbn [bind] in Hsor
           | _ => idtac
           end;
    try discriminate; congruence.
Qed.

(** A concrete run: the test stripe with a newer valid copy B. *)
Lemma stripe_read_selection_raises_witness :
  (forall o, c1_disk o <> []) /\
  (StripeRead.read 8000 c1_disk c1_stripe = Exc NameError \/
   StripeRead.read 8000 c1_disk c1_stripe = Exc ZeroDivisionError).
Proof.
  split.
  - intros o. unfold c1_disk. destruct (o =? 16384); discriminate.
  - apply stripe_read_selection_raises.
    intros o. unfold c1_disk. destruct (o =? 16384); discriminate.
Defined.

(* ------------------------------------------------------------------ *)
(** ** C10: the handlers that call [utils.log_exc] *)

(** C10.  [scan/utils.py] defines [log] but no [log_exc], so every
    handler whose first action is [utils.log_exc(...)] raises
    [AttributeError] instead of recovering; in particular [Stripe.fetch]
    with three integer indices on a read directory never returns [None]
    for its bad indices, and [Alternate.requestURL] on absent or
    undecoded raw headers never returns ["Unknown"]. *)
Theorem log_exc_handlers_raise :
  (forall (A : Type) (k : unit -> result A),
      bind (Utils.utils_call "log_exc") k = Exc AttributeError) /\
  (forall (directory : list Directory.row) (i j k : Z),
      StripeDir.fetch_dirent (Some directory) i j k = Exc AttributeError) /\
  Http.requestURL None Http.HNone = Exc AttributeError /\
  (forall b : list byte, Http.requestURL None (Http.HBytes b) = Exc AttributeError).
Proof.
  split; [|split; [|split]].
  - intros A k. rewrite utils_log_exc_missing. reflexivity.
  - intros directory i j k. reflexivity.
  - reflexivity.
  - intros b. reflexivity.
Qed.

(* ------------------------------------------------------------------ *)
(** ** C2: the stripe loop of [Span.__init__] *)

Section C2.

Context {S : Type}.
Variable construct : Z * Z * Z * Z -> result S.
Variable read : S -> result S.
Variable on_construct_error : result unit.

Lemma span_blocks_app (l1 l2 : list (Z * Z * Z * Z)) (blocks : list S) :
  Span.span_blocks construct read on_construct_error (l1 ++ l2) blocks =
  bind (Span.span_blocks construct read on_construct_error l1 blocks)
       (Span.span_blocks construct read on_construct_error l2).
Proof.
  revert blocks; induction l1 as [|h t IH]; intros blocks; [reflexivity|].
  cbn [app Span.span_blocks].
  destruct (construct h) as [s|e]; cbn [bind try_except].
  - destruct (read s) as [s'|e]; cbn [bind]; [apply IH|reflexivity].
  - destruct (existsb (exn_eqb e) [ValueError]); [|reflexivity].
    destruct on_construct_error as [[]|e']; cbn [bind]; [apply IH|reflexivity].
Qed.

End C2.

(** C2 fails as stated: a span with two well-formed stripe headers on the
    test file does not get its stripes, since the failure of [Stripe.read]
    on the first stripe aborts the whole construction; and a stripe whose
    construction fails, followed by a good one, aborts it as well. *)
Lemma span_stripe_failure_counterexample :
  Span.span_blocks_code 8000 c1_disk [c2_good_header; c2_good_header] = Exc NameError /\
  Span.span_blocks_code 8000 c1_disk [c2_bad_header; c2_good_header] = Exc AttributeError.
Proof. split; vm_compute; reflexivity. Qed.

(** C2 (amended).  [Span.__init__] walks the stripe headers in order and
    guards only the [Stripe] constructor: when the constructor raises
    [ValueError] and the handler returns, the stripe is skipped and the
    loop goes on with the same block list; [Stripe.read] runs outside the
    guard, so an exception it raises for a constructed stripe propagates
    out of the whole construction, and the later headers are never
    processed. *)
Theorem span_guards_construction_only :
  forall (S : Type) (construct : Z * Z * Z * Z -> result S) (read : S -> result S)
         (handler : result unit),
    (forall h t blocks,
        construct h = Exc ValueError -> handler = Ok tt ->
        Span.span_blocks construct read handler (h :: t) blocks =
        Span.span_blocks construct read handler t blocks) /\
    (forall pre h post blocks s e,
        Span.span_blocks construct read handler pre [] = Ok blocks ->
        construct h = Ok s -> read s = Exc e ->
        Span.span_blocks construct read handler (pre ++ h :: post) [] = Exc e).
Proof.
  intros S construct read handler. split.
  - intros h t blocks Hc Hh. cbn [Span.span_blocks]. rewrite Hc, Hh. reflexivity.
  - intros pre h post blocks s e Hpre Hc Hr.
    rewrite span_blocks_app, Hpre. cbn [bind Span.span_blocks].
    rewrite Hc. cbn [bind try_except]. rewrite Hr. reflexivity.
Qed.

Lemma span_guards_construction_only_witness :
  let construct (h : Z * Z * Z * Z) : result nat :=
    let '(_, _, _, tf) := h in if tf =? 1 then Ok 1%nat else Exc ValueError in
  let read (n : nat) : result nat := if Nat.eqb n 1 then Exc ValueError else Ok n in
  Span.span_blocks construct read (Ok tt) (c2_bad_header :: [c2_good_header]) [] =
  Span.span_blocks construct read (Ok tt) [c2_good_header] [] /\
  Span.span_blocks construct read (Ok tt) ([c2_bad_header] ++ c2_good_header :: [c2_good_header]) [] =
  Exc ValueError.
Proof.
  intros construct read.
  destruct (span_guards_construction_only nat construct read (Ok tt)) as [H1 H2].
  split.
  - apply H1; reflexivity.
  - apply (H2 [c2_bad_header] c2_good_header [c2_good_header] [] 1%nat ValueError);
      reflexivity.
Defined.

(* ------------------------------------------------------------------ *)
(** ** C3: the rows [Stripe.heads] yields *)

(** C3.  The nonzero-offset mask of [Stripe.heads] adds the offset
    half-words in [uint16] arithmetic; their sum wraps to zero for this
    row, so a row with a nonzero raw offset and an in-phase head bit is
    dropped, while the described filter keeps it. *)
Theorem heads_drops_wrapped_offset :
  StripeDir.raw_offset c3_row = 549755846656 /\
  StripeDir.head_mask false c3_row = true /\
  StripeDir.heads false [c3_row] = [] /\
  StripeDir.heads_described false [c3_row] = [c3_row].
Proof. split; [|split; [|split]]; vm_compute; reflexivity. Qed.

(* ------------------------------------------------------------------ *)
(** ** C4: the bytes [Stripe.firstDocs] hands to the alternates parser *)

Lemma py_slice_length {A} (l : list A) (a b : Z) :
  0 <= a -> 0 <= b ->
  (length (Bytes.py_slice l a b) <= Z.to_nat (Z.min b (Z.of_nat (length l)) - Z.min a (Z.of_nat (length l))))%nat.
Proof.
  intros Ha Hb. unfold Bytes.py_slice, Bytes.slice_bound.
  destruct (a <? 0) eqn:Ea; [apply Z.ltb_lt in Ea; lia|].
  destruct (b <? 0) eqn:Eb; [apply Z.ltb_lt in Eb; lia|].
  rewrite length_firstn. lia.
Qed.

(** C4.  For every buffer holding a Doc with the valid magic and
    [hlen > 0], [firstDocs] hands [buffer[72:hlen]] to the alternates
    parser: fewer than [hlen] bytes, so never the [hlen] bytes
    [buffer[72:72+hlen]] that follow the header; the payload it keeps is
    [buffer[72+hlen:length]]. *)
Theorem firstDocs_alternates_region_short :
  forall (buffer : list byte) (doc : Directory.Doc),
    Directory.Doc_from_buffer (Bytes.py_slice buffer 0 Directory.Doc_sizeof) = Ok doc ->
    Directory.doc_magic doc = Directory.Doc_MAGIC ->
    0 < Directory.doc_hlen doc ->
    exists info data,
      StripeDir.firstDoc_regions buffer = Ok (Some (info, data)) /\
      info = Bytes.py_slice buffer 72 (Directory.doc_hlen doc) /\
      data = Bytes.py_slice buffer (72 + Directory.doc_hlen doc) (Directory.doc_length doc) /\
      (Z.of_nat (length info) < Directory.doc_hlen doc)%Z.
Proof.
  intros buffer doc Hdoc Hm Hh.
  unfold StripeDir.firstDoc_regions. rewrite Hdoc. cbn [bind].
  rewrite Hm, Z.eqb_refl. apply Z.ltb_lt in Hh as Hh'. rewrite Hh'. cbn.
  eexists _, _. split; [reflexivity|]. split; [reflexivity|]. split; [reflexivity|].
  change Directory.Doc_sizeof with 72.
  pose proof (py_slice_length buffer 72 (Directory.doc_hlen doc)) as Hl.
  specialize (Hl ltac:(lia) ltac:(lia)).
  set (L := Z.of_nat (length buffer)) in *.
  set (x := Z.min (Directory.doc_hlen doc) L - Z.min 72 L) in *.
  apply Nat2Z.inj_le in Hl.
  destruct (Z.le_gt_cases 0 x) as [Hx|Hx].
  - rewrite Z2Nat.id in Hl by exact Hx. subst x. lia.
  - assert (Z.to_nat x = 0%nat) as H0 by (apply Z2Nat.nonpos; lia).
    rewrite H0 in Hl. cbn in Hl. lia.
Qed.

Lemma firstDocs_alternates_region_short_witness :
  exists info data,
    StripeDir.firstDoc_regions c4_buffer = Ok (Some (info, data)) /\
    info = Bytes.py_slice c4_buffer 72 100 /\
    data = Bytes.py_slice c4_buffer 172 300 /\
    (Z.of_nat (length info) < 100)%Z.
Proof.
  apply (firstDocs_alternates_region_short c4_buffer
           {| Directory.doc_magic := Directory.Doc_MAGIC; Directory.doc_length := 300;
              Directory.doc_totalLength := 300; Directory.doc_hlen := 100 |});
    vm_compute; reflexivity.
Defined.

(* ------------------------------------------------------------------ *)
(** ** C5: the external fragment table of [Alternate.fromBuffer] *)

(** A slice that starts past the beginning is shorter than its end bound. *)
Lemma py_slice_length_lt {A} (l : list A) (a b : Z) :
  0 < a -> 0 < b -> Z.of_nat (length (Bytes.py_slice l a b)) < b.
Proof.
  intros Ha Hb.
  pose proof (py_slice_length l a b ltac:(lia) ltac:(lia)) as Hl.
  set (L := Z.of_nat (length l)) in *.
  set (x := Z.min b L - Z.min a L) in *.
  apply Nat2Z.inj_le in Hl.
  destruct (Z.le_gt_cases 0 x) as [Hx|Hx].
  - rewrite Z2Nat.id in Hl by exact Hx. subst x. lia.
  - assert (Z.to_nat x = 0%nat) as H0 by (apply Z2Nat.nonpos; lia).
    rewrite H0 in Hl. cbn in Hl. lia.
Qed.

(** C5.  For every buffer and every [fragOffsetCount > 4], the fragment
    table is unpacked from [raw[sizeof:fragTblSize]], which holds fewer
    than the [fragTblSize = 8 * (fragOffsetCount - 4)] bytes
    [struct.unpack] needs; the [struct.error] handler then calls the
    missing [utils.log_exc].  No such Alternate gets its fragment offsets
    (nor even the bail-out [return current]). *)
Theorem fromBuffer_frag_table_never_decoded :
  forall (raw : list byte) (fragOffsetCount : Z),
    4 < fragOffsetCount ->
    Http.frag_table raw fragOffsetCount = Exc AttributeError.
Proof.
  intros raw c Hc. unfold Http.frag_table.
  replace (4 <? c) with true by (symmetry; apply Z.ltb_lt; lia).
  unfold Utils.POINTER_SIZE.
  replace (0 <? (c - 4) * 8) with true by (symmetry; apply Z.ltb_lt; lia).
  unfold Bytes.unpack_P.
  replace (Z.of_nat (length (Bytes.py_slice raw Http.Alternate_sizeof ((c - 4) * 8)))
             =? 8 * (c - 4)) with false.
  - reflexivity.
  - symmetry. apply Z.eqb_neq.
    pose proof (py_slice_length_lt raw Http.Alternate_sizeof ((c - 4) * 8)) as Hl.
    change Http.Alternate_sizeof with 248 in *.
    specialize (Hl ltac:(lia) ltac:(lia)). lia.
Qed.

Lemma fromBuffer_frag_table_never_decoded_witness :
  4 < 6 /\ Http.frag_table (repeat x00 400) 6 = Exc AttributeError.
Proof. split; [lia | apply fromBuffer_frag_table_never_decoded; lia]. Defined.

(* ------------------------------------------------------------------ *)
(** ** C6: the fallback of [Alternate.requestURL] *)

(** C6.  Without a decoded URL, [requestURL] raises instead of returning
    ["Unknown"]: on decoded headers without the token ["http"],
    [str.index] raises [ValueError], which the handler does not catch;
    on absent headers the handler is entered and its [utils.log_exc] call
    raises [AttributeError].  When the token is found, the headers are
    sliced from its last occurrence. *)
Theorem requestURL_fallback_raises :
  (forall s : string,
      Http.str_index (Http.str_rev s) "ptth" = Exc ValueError ->
      Http.requestURL None (Http.HStr s) = Exc ValueError) /\
  Http.requestURL None Http.HNone = Exc AttributeError /\
  Http.requestURL None (Http.HStr "GET http://a/ Referer: http://b/c") =
    Ok (Http.RStr "http://b/c").
Proof.
  split; [|split].
  - intros s Hs. unfold Http.requestURL. rewrite Hs. reflexivity.
  - reflexivity.
  - vm_compute. reflexivity.
Qed.

Lemma requestURL_fallback_raises_witness :
  Http.str_index (Http.str_rev "Host: example.com") "ptth" = Exc ValueError /\
  Http.requestURL None (Http.HStr "Host: example.com") = Exc ValueError.
Proof.
  split; [vm_compute; reflexivity|].
  apply (proj1 requestURL_fallback_raises). vm_compute. reflexivity.
Defined.

(* ------------------------------------------------------------------ *)
(** ** C7: the consumer of the parallel enumeration *)

Lemma drain_done {V} (n c : Z) (q : list (option V)) :
  n <= c -> StripeDir.drain n c q = ([], true).
Proof.
  intros H. destruct q as [|[v|] q]; cbn;
    replace (c <? n) with false by (symmetry; apply Z.ltb_ge; lia); reflexivity.
Qed.

(** C7.  The consumer starts its sentinel count at 1 and stops while it
    is below the worker count: with one worker it yields nothing at all,
    and with two workers it stops at the first sentinel, losing the
    values the other worker puts after it. *)
Theorem consumer_stops_one_sentinel_early :
  (forall (V : Type) (q : list (option V)), StripeDir.consume 1 q = ([], true)) /\
  StripeDir.consume 2 (StripeDir.worker_puts [1; 2]%nat ++ StripeDir.worker_puts [3]%nat) =
    ([1; 2]%nat, true).
Proof.
  split.
  - intros V q. apply drain_done. lia.
  - reflexivity.
Qed.

(* ------------------------------------------------------------------ *)
(** ** C8: duplicate volume numbers in [volume.config] *)

(** C8.  The duplicate check tests the [int] volume number against the
    list of [str] lines, which never contains it: a volume defined twice
    is accepted and the later definition replaces the earlier one. *)
Theorem parseVolumeConfig_accepts_duplicates :
  forall (storage_loaded : bool) (totalCacheSizeAvailable : Z),
    Config.parseVolumeConfig storage_loaded totalCacheSizeAvailable c8_contents =
    Ok (<[1 := (Utils.HTTP, 20971520)]> ∅).
Proof. intros sl tot. vm_compute. reflexivity. Qed.

(* ------------------------------------------------------------------ *)
(** ** C9: the directory entry of the repository's unit test *)

(** C9 fails as stated: the file-relative offset is not [0xA000] times
    the hash size (16 with FIPS off). *)
Lemma dirEntry_test_offset_counterexample :
  Directory.de_Offset (Directory.DirEntry_init (Directory.unpack_row c9_raw)) <>
  40960 * Config.INK_MD5_SIZE false.
Proof. vm_compute. discriminate. Qed.

(** C9 (amended).  The entry packed as [(0xA000, 0, 0x2FFF, 0, 0)] has
    raw offset [0xA000], file-relative offset [(0xA000 - 1) * 512], size
    512, head set, phase, pinned and token clear, tag [0x0FFF], next 0,
    and is in use. *)
Theorem dirEntry_test_vector :
  let d := Directory.DirEntry_init (Directory.unpack_row c9_raw) in
  Directory.de__offset d = 40960 /\
  Directory.de_Offset d = (40960 - 1) * 512 /\
  Directory.de_length d = 512 /\
  Directory.de_head d = true /\
  Directory.de_phase d = false /\
  Directory.de_pinned d = false /\
  Directory.de_token d = false /\
  Directory.de_tag d = 4095 /\
  Directory.de_next d = 0 /\
  Directory.DirEntry_bool d = true.
Proof. vm_compute. repeat (split; [reflexivity|]). reflexivity. Qed.

(* ================================================================== *)
(** * Further properties of the decoder *)

(** ** Slices and little-endian packing *)

Lemma py_slice_in {A} (l : list A) (a b : Z) :
  0 <= a <= b -> b <= Z.of_nat (length l) ->
  Bytes.py_slice l a b = firstn (Z.to_nat (b - a)) (skipn (Z.to_nat a) l).
Proof.
  intros Hab Hb. unfold Bytes.py_slice, Bytes.slice_bound.
  replace (a <? 0) with false by (symmetry; apply Z.ltb_ge; lia).
  replace (b <? 0) with false by (symmetry; apply Z.ltb_ge; lia).
  rewrite (Z.min_l a) by lia. rewrite (Z.min_l b) by lia. reflexivity.
Qed.

Lemma length_py_slice_in {A} (l : list A) (a b : Z) :
  0 <= a <= b -> b <= Z.of_nat (length l) ->
  Z.of_nat (length (Bytes.py_slice l a b)) = b - a.
Proof.
  intros Hab Hb. rewrite py_slice_in by lia.
  rewrite length_firstn, length_skipn. lia.
Qed.

Lemma py_slice_mid {A} (pre mid post : list A) (a b : Z) :
  a = Z.of_nat (length pre) -> b = a + Z.of_nat (length mid) ->
  Bytes.py_slice (pre ++ mid ++ post) a b = mid.
Proof.
  intros -> ->. rewrite py_slice_in by (rewrite ?length_app; lia).
  rewrite Nat2Z.id, skipn_app, skipn_all, Nat.sub_diag.
  replace (Z.to_nat _) with (length mid) by lia.
  cbn [app]. rewrite skipn_O, firstn_app, firstn_all, Nat.sub_diag. cbn [firstn].
  apply app_nil_r.
Qed.

Lemma py_slice_py_slice {A} (l : list A) (a b c : Z) :
  0 <= a <= b -> b <= c -> c <= Z.of_nat (length l) ->
  Bytes.py_slice (Bytes.py_slice l 0 c) a b = Bytes.py_slice l a b.
Proof.
  intros Hab Hbc Hc.
  assert (Hlen : Z.of_nat (length (Bytes.py_slice l 0 c)) = c)
    by (rewrite length_py_slice_in; lia).
  rewrite (py_slice_in (Bytes.py_slice l 0 c)) by lia.
  rewrite py_slice_in by lia. rewrite (py_slice_in l a b) by lia.
  rewrite skipn_firstn_comm, firstn_firstn, Z.sub_0_r. f_equal. lia.
Qed.

Lemma length_pack_le (n : nat) (v : Z) : length (Bytes.pack_le n v) = n.
Proof. revert v; induction n as [|n IH]; intros v; cbn; [reflexivity|]. rewrite IH. reflexivity. Qed.

Lemma le_int_pack_le (n : nat) (v : Z) :
  Bytes.le_int (Bytes.pack_le n v) = v mod 2 ^ (8 * Z.of_nat n).
Proof.
  revert v; induction n as [|n IH]; intros v.
  - cbn. symmetry. apply Z.mod_1_r.
  - cbn [Bytes.pack_le Bytes.le_int]. rewrite IH.
    assert (Hb : Z.of_N (Byte.to_N (match Byte.of_N (Z.to_N (v mod 256)) with
                                    | Some b => b | None => x00 end)) = v mod 256).
    { pose proof (Z.mod_pos_bound v 256 ltac:(lia)) as Hr.
      destruct (Byte.of_N (Z.to_N (v mod 256))) as [b|] eqn:E.
      - apply Byte.to_of_N in E. rewrite E. apply Z2N.id. lia.
      - apply Byte.of_N_None_iff in E. lia. }
    rewrite Hb.
    set (P := 2 ^ (8 * Z.of_nat n)).
    assert (HP : 0 < P) by (apply Z.pow_pos_nonneg; lia).
    assert (HP' : 2 ^ (8 * Z.of_nat (S n)) = 256 * P)
      by (unfold P; rewrite Nat2Z.inj_succ, Z.mul_succ_r, Z.pow_add_r by lia; lia).
    rewrite HP'.
    pose proof (Z.div_mod v 256 ltac:(lia)) as E1.
    pose proof (Z.mod_pos_bound v 256 ltac:(lia)) as B1.
    pose proof (Z.div_mod (v / 256) P ltac:(lia)) as E2.
    pose proof (Z.mod_pos_bound (v / 256) P HP) as B2.
    apply (Z.mod_unique v (256 * P) (v / 256 / P)); [left; nia | nia].
Qed.

Lemma le_int_bounds (bs : list byte) :
  0 <= Bytes.le_int bs < 2 ^ (8 * Z.of_nat (length bs)).
Proof.
  induction bs as [|b t IH]; cbn [Bytes.le_int length]; [cbn; lia|].
  pose proof (Byte.to_N_bounded b) as Hb.
  rewrite Nat2Z.inj_succ, Z.mul_succ_r, Z.pow_add_r by lia.
  change (2 ^ 8) with 256. lia.
Qed.

(** ** [struct.unpack] *)

Lemma unpack_ok (f : Struct.format) (bs : list byte) :
  Z.of_nat (length bs) = Struct.calcsize f ->
  Struct.unpack f bs =
  Ok (map (Struct.decode bs) (filter Struct.is_pad (Struct.layout_from 0 (Struct.expand f)))).
Proof. intros H. unfold Struct.unpack. rewrite H, Z.eqb_refl. reflexivity. Qed.

Lemma unpack_bad (f : Struct.format) (bs : list byte) :
  Z.of_nat (length bs) <> Struct.calcsize f -> Struct.unpack f bs = Exc StructError.
Proof. intros H. unfold Struct.unpack. apply Z.eqb_neq in H. rewrite H. reflexivity. Qed.

Lemma py_slice_skip {A} (pre rest : list A) (a b : Z) :
  Z.of_nat (length pre) <= a <= b -> b <= Z.of_nat (length (pre ++ rest)) ->
  Bytes.py_slice (pre ++ rest) a b =
  Bytes.py_slice rest (a - Z.of_nat (length pre)) (b - Z.of_nat (length pre)).
Proof.
  intros Hab Hb. rewrite length_app in Hb.
  rewrite py_slice_in by (rewrite ?length_app; lia).
  rewrite py_slice_in by lia.
  rewrite skipn_app, skipn_all2 by lia. cbn [app]. f_equal; [lia|]. f_equal. lia.
Qed.

Lemma py_slice_prefix {A} (mid post : list A) (n : Z) :
  n = Z.of_nat (length mid) -> Bytes.py_slice (mid ++ post) 0 n = mid.
Proof. intros Hn. exact (py_slice_mid [] mid post 0 n eq_refl Hn). Qed.

(** The bytes at [[o, o + n)] of a concatenation of fields. *)
Ltac field_lengths :=
  rewrite ?length_app, ?length_pack_le;
  repeat match goal with H : length _ = _ |- _ => rewrite H end.

Ltac slice_field :=
  repeat (rewrite py_slice_skip by (field_lengths; cbn; lia);
          field_lengths; cbn [Z.of_nat Pos.of_succ_nat Pos.succ Z.sub Z.add]);
  first [ apply py_slice_prefix; field_lengths; reflexivity
        | rewrite <- (app_nil_r (Bytes.pack_le _ _)) at 1;
          apply py_slice_prefix; field_lengths; reflexivity ].

(* ------------------------------------------------------------------ *)
(** ** [utils.align] *)

(** [utils.align(x, u)] with a positive [u] rounds [x] up to the least
    multiple of [u] that is at least [x], and leaves a multiple of [u]
    unchanged. *)
Theorem align_least_multiple (x u : Z) :
  0 < u ->
  Utils.align x u mod u = 0 /\
  x <= Utils.align x u < x + u /\
  Utils.align (Utils.align x u) u = Utils.align x u.
Proof.
  intros Hu.
  assert (Hfix : forall y, y mod u = 0 -> Utils.align y u = y).
  { intros y Hy. unfold Utils.align. rewrite Hy. reflexivity. }
  assert (Hm : Utils.align x u mod u = 0).
  { unfold Utils.align. destruct (x mod u =? 0) eqn:E; [apply Z.eqb_eq in E; exact E|].
    apply Z.eqb_neq in E.
    pose proof (Z.div_mod x u ltac:(lia)) as Ex.
    replace (x + (u - x mod u)) with ((x / u + 1) * u) by lia.
    apply Z.mod_mul. lia. }
  split; [exact Hm|]. split; [|apply Hfix, Hm].
  unfold Utils.align. pose proof (Z.mod_pos_bound x u Hu).
  destruct (x mod u =? 0) eqn:E; [lia|]. apply Z.eqb_neq in E. lia.
Qed.

Lemma align_least_multiple_witness :
  0 < 8192 /\
  Utils.align 16458 8192 mod 8192 = 0 /\
  16458 <= Utils.align 16458 8192 < 16458 + 8192 /\
  Utils.align (Utils.align 16458 8192) 8192 = Utils.align 16458 8192.
Proof. split; [lia | apply align_least_multiple; lia]. Defined.

(* ------------------------------------------------------------------ *)
(** ** [utils.unpacklong] *)

(** [unpacklong] raises [ValueError] on anything but eight bytes, and
    reads back every 64-bit value stored as its high 32-bit half followed
    by its low half. *)
Theorem unpacklong_roundtrip :
  (forall raw, length raw <> 8%nat -> UtilsFns.unpacklong raw = Exc ValueError) /\
  (forall v, 0 <= v < 2 ^ 64 ->
     UtilsFns.unpacklong (Bytes.pack_le 4 (v / 2 ^ 32) ++ Bytes.pack_le 4 (v mod 2 ^ 32)) =
     Ok v).
Proof.
  split.
  - intros raw Hl. unfold UtilsFns.unpacklong, Struct.unpack.
    change (Struct.calcsize [(2%nat, Struct.cI)]) with 8.
    replace (Z.of_nat (length raw) =? 8) with false by (symmetry; apply Z.eqb_neq; lia).
    reflexivity.
  - intros v Hv. unfold UtilsFns.unpacklong.
    remember (Bytes.pack_le 4 (v / 2 ^ 32)) as hi eqn:Ehi.
    remember (Bytes.pack_le 4 (v mod 2 ^ 32)) as lo eqn:Elo.
    assert (Hhi : length hi = 4%nat) by (subst; apply length_pack_le).
    assert (Hlo : length lo = 4%nat) by (subst; apply length_pack_le).
    rewrite unpack_ok by (rewrite length_app, Hhi, Hlo; reflexivity).
    change (filter Struct.is_pad (Struct.layout_from 0 (Struct.expand [(2%nat, Struct.cI)])))
      with [(0, Struct.cI); (4, Struct.cI)].
    cbn [map try_except bind]. unfold Struct.decode. cbn [Struct.size Struct.signed andb].
    assert (E1 : Bytes.py_slice (hi ++ lo) 0 (0 + 4) = hi).
    { pose proof (py_slice_mid [] hi lo 0 (0 + 4)) as H. cbn [app] in H.
      apply H; [reflexivity | rewrite Hhi; reflexivity]. }
    assert (E2 : Bytes.py_slice (hi ++ lo) 4 (4 + 4) = lo).
    { pose proof (py_slice_mid hi lo [] 4 (4 + 4)) as H. rewrite app_nil_r in H.
      apply H; [rewrite Hhi; reflexivity | rewrite Hlo; reflexivity]. }
    rewrite E1, E2. subst hi lo. rewrite !le_int_pack_le.
    change (2 ^ (8 * Z.of_nat 4)) with (2 ^ 32).
    rewrite Z.mod_mod by lia.
    rewrite (Z.mod_small (v / 2 ^ 32)).
    + f_equal. change (16 ^ 8) with (2 ^ 32).
      pose proof (Z.div_mod v (2 ^ 32) ltac:(lia)). lia.
    + split; [apply Z.div_pos; lia|]. apply Z.div_lt_upper_bound; lia.
Qed.

Lemma unpacklong_roundtrip_witness :
  length [x01; x02; x03] <> 8%nat /\ UtilsFns.unpacklong [x01; x02; x03] = Exc ValueError /\
  0 <= 4294967298 < 2 ^ 64 /\
  UtilsFns.unpacklong (Bytes.pack_le 4 (4294967298 / 2 ^ 32) ++
                       Bytes.pack_le 4 (4294967298 mod 2 ^ 32)) = Ok 4294967298.
Proof.
  split; [discriminate|]. split; [apply (proj1 unpacklong_roundtrip); discriminate|].
  split; [lia|]. apply (proj2 unpacklong_roundtrip). lia.
Defined.

(* ------------------------------------------------------------------ *)
(** ** [DiskHeader] and the header of a span *)

Lemma DiskHeader_layout :
  filter Struct.is_pad (Struct.layout_from 0 (Struct.expand DiskHdr.BASIC_FORMAT)) =
  [(0, Struct.cI); (4, Struct.cI); (8, Struct.cI); (12, Struct.cI); (16, Struct.cI);
   (24, Struct.cQ)].
Proof. reflexivity. Qed.

Lemma DiskHeader_sizeof : Struct.calcsize DiskHdr.BASIC_FORMAT = 32.
Proof. reflexivity. Qed.

(** [DiskHeader(raw)] raises only [AttributeError] or [ValueError]. *)
Lemma DiskHeader_init_exc (raw : list byte) (e : exn) :
  DiskHdr.DiskHeader_init raw = Exc e -> e = AttributeError \/ e = ValueError.
Proof.
  unfold DiskHdr.DiskHeader_init.
  destruct (Struct.unpack DiskHdr.BASIC_FORMAT raw) as [r|e'] eqn:Hu.
  - cbn [try_except bind].
    destruct r as [|m [|v [|f [|u [|d [|b [|x t]]]]]]];
      try (intros H; injection H as <-; auto; fail).
    rewrite utils_log_exists. cbn [bind].
    destruct (negb (m =? DiskHdr.MAGIC)); rewrite ?utils_log_exists; cbn [bind];
      intros H; [injection H as <-; auto | discriminate].
  - unfold Struct.unpack in Hu. destruct (_ =? _); [discriminate|].
    injection Hu as <-. cbn. intros H; injection H; auto.
Qed.

(** [DiskHeader(raw)]: a buffer of any length but 32 bytes ends in the
    [struct.error] handler, whose [utils.log_exc] call raises
    [AttributeError]; 32 bytes with the wrong magic raise [ValueError];
    a header packed as ["5IQ"] with the magic is read back field by
    field (the four pad bytes before the 64-bit [blocks] are skipped). *)
Theorem DiskHeader_init_behaviour :
  (forall raw, length raw <> 32%nat -> DiskHdr.DiskHeader_init raw = Exc AttributeError) /\
  (forall raw, length raw = 32%nat ->
     Bytes.le_int (Bytes.py_slice raw 0 4) <> DiskHdr.MAGIC ->
     DiskHdr.DiskHeader_init raw = Exc ValueError) /\
  (forall volumes free used diskvolBlocks pad blocks,
     0 <= volumes < 2 ^ 32 -> 0 <= free < 2 ^ 32 -> 0 <= used < 2 ^ 32 ->
     0 <= diskvolBlocks < 2 ^ 32 -> length pad = 4%nat -> 0 <= blocks < 2 ^ 64 ->
     DiskHdr.DiskHeader_init
       (Bytes.pack_le 4 DiskHdr.MAGIC ++ Bytes.pack_le 4 volumes ++ Bytes.pack_le 4 free ++
        Bytes.pack_le 4 used ++ Bytes.pack_le 4 diskvolBlocks ++ pad ++ Bytes.pack_le 8 blocks) =
     Ok (DiskHdr.mkDiskHeader volumes free used diskvolBlocks blocks)).
Proof.
  split; [|split].
  - intros raw Hl. unfold DiskHdr.DiskHeader_init.
    rewrite unpack_bad by (rewrite DiskHeader_sizeof; lia). reflexivity.
  - intros raw Hl Hm. unfold DiskHdr.DiskHeader_init.
    rewrite unpack_ok by (rewrite DiskHeader_sizeof, Hl; reflexivity).
    rewrite DiskHeader_layout. cbn [map try_except bind].
    unfold Struct.decode at 1. cbn [Struct.size Struct.signed andb].
    cbv [Z.add Pos.add Pos.add_carry Pos.succ].
    rewrite utils_log_exists. cbn [bind].
    apply Z.eqb_neq in Hm. rewrite Hm. reflexivity.
  - intros v f u d pad b Hv Hf Hu Hd Hpad Hb.
    unfold DiskHdr.DiskHeader_init.
    rewrite unpack_ok
      by (rewrite DiskHeader_sizeof, !length_app, !length_pack_le, Hpad; reflexivity).
    rewrite DiskHeader_layout. cbn [map try_except bind].
    unfold Struct.decode. cbn [Struct.size Struct.signed andb].
    cbv [Z.add Pos.add Pos.add_carry Pos.succ].
    set (raw := Bytes.pack_le 4 DiskHdr.MAGIC ++ _).
    assert (E0 : Bytes.py_slice raw 0 4 = Bytes.pack_le 4 DiskHdr.MAGIC) by (unfold raw; slice_field).
    assert (E1 : Bytes.py_slice raw 4 8 = Bytes.pack_le 4 v) by (unfold raw; slice_field).
    assert (E2 : Bytes.py_slice raw 8 12 = Bytes.pack_le 4 f) by (unfold raw; slice_field).
    assert (E3 : Bytes.py_slice raw 12 16 = Bytes.pack_le 4 u) by (unfold raw; slice_field).
    assert (E4 : Bytes.py_slice raw 16 20 = Bytes.pack_le 4 d) by (unfold raw; slice_field).
    assert (E5 : Bytes.py_slice raw 24 32 = Bytes.pack_le 8 b).
    { unfold raw. slice_field. }
    rewrite E0, E1, E2, E3, E4, E5, !le_int_pack_le.
    change (2 ^ (8 * Z.of_nat 4)) with (2 ^ 32). change (2 ^ (8 * Z.of_nat 8)) with (2 ^ 64).
    rewrite !Z.mod_small by (unfold DiskHdr.MAGIC; lia).
    rewrite utils_log_exists. reflexivity.
Qed.

Lemma DiskHeader_init_behaviour_witness :
  DiskHdr.DiskHeader_init (repeat x00 24) = Exc AttributeError /\
  DiskHdr.DiskHeader_init (repeat x00 32) = Exc ValueError /\
  DiskHdr.DiskHeader_init
    (Bytes.pack_le 4 DiskHdr.MAGIC ++ Bytes.pack_le 4 1 ++ Bytes.pack_le 4 100 ++
     Bytes.pack_le 4 20 ++ Bytes.pack_le 4 1 ++ repeat x00 4 ++ Bytes.pack_le 8 131072) =
  Ok (DiskHdr.mkDiskHeader 1 100 20 1 131072).
Proof.
  destruct DiskHeader_init_behaviour as [H1 [H2 H3]].
  split; [apply H1; discriminate|]. split.
  - apply H2; [reflexivity | vm_compute; discriminate].
  - apply H3; try lia. reflexivity.
Defined.

(** The header step of [Span.__init__]: a header [DiskHeader] accepts is
    kept; every rejected one, whether by its size or by its magic, ends
    in [AttributeError] (the handler's [utils.log_exc] call), never in
    the [ValueError] the handler means to raise. *)
Theorem span_header_outcome :
  forall raw,
    DiskHdr.span_header raw =
    match DiskHdr.DiskHeader_init raw with
    | Ok h => Ok h
    | Exc _ => Exc AttributeError
    end.
Proof.
  intros raw. unfold DiskHdr.span_header.
  destruct (DiskHdr.DiskHeader_init raw) as [h|e] eqn:Hd; [reflexivity|].
  destruct (DiskHeader_init_exc raw e Hd) as [-> | ->]; reflexivity.
Qed.

(* ------------------------------------------------------------------ *)
(** ** [SpanBlockHeader] *)

Lemma land_7_mod (x : Z) : Z.land x 7 = x mod 8.
Proof. change 7 with (Z.ones 3). rewrite Z.land_ones by lia. reflexivity. Qed.

Lemma land_8_testbit (x : Z) : (Z.land x 8 =? 8) = Z.testbit x 3.
Proof.
  assert (H : Z.land x 8 = if Z.testbit x 3 then 8 else 0).
  { apply Z.bits_inj'. intros n Hn. rewrite Z.land_spec.
    change 8 with (2 ^ 3). rewrite Z.pow2_bits_eqb by lia.
    destruct (Z.testbit x 3) eqn:E.
    - rewrite Z.pow2_bits_eqb by lia.
      destruct (Z.eqb_spec 3 n); subst; [rewrite E|]; now rewrite ?andb_true_r, ?andb_false_r.
    - rewrite Z.bits_0.
      destruct (Z.eqb_spec 3 n); subst; [rewrite E|]; now rewrite ?andb_true_r, ?andb_false_r. }
  rewrite H. destruct (Z.testbit x 3); reflexivity.
Qed.

(** [SpanBlockHeader((offset, length, number, typeFree))]: the constructor
    raises [ValueError] exactly when the type bits [typeFree & 7] are 3 or
    more, and then the stripe constructor [Stripe(...)] raises too;
    otherwise the block is free exactly when bit 3 of [typeFree] is set. *)
Theorem SpanBlockHeader_type_free :
  forall offset length number typeFree,
    match SpanBlock.SpanBlockHeader_init (offset, length, number, typeFree) with
    | Ok h =>
        Z.land typeFree 7 < 3 /\
        Utils.CacheType_of (Z.land typeFree 7) = Ok (SpanBlock.sbh_Type h) /\
        SpanBlock.sbh_free h = Z.testbit typeFree 3 /\
        (exists s, StripeRead.construct (offset, length, number, typeFree) = Ok s)
    | Exc e =>
        e = ValueError /\ 3 <= Z.land typeFree 7 /\
        StripeRead.construct (offset, length, number, typeFree) = Exc ValueError
    end.
Proof.
  intros o l n tf. unfold SpanBlock.SpanBlockHeader_init, StripeRead.construct.
  rewrite utils_log_exists. cbn [bind].
  pose proof (Z.mod_pos_bound tf 8 ltac:(lia)) as Hb. rewrite land_7_mod.
  unfold Utils.CacheType_of.
  destruct (Z.eqb_spec (tf mod 8) 0);
    [|destruct (Z.eqb_spec (tf mod 8) 1); [|destruct (Z.eqb_spec (tf mod 8) 2)]]; cbn;
    first [ split; [lia|]; split; [reflexivity|]; split;
            [apply land_8_testbit | eexists; reflexivity]
          | split; [reflexivity|]; split; [lia | reflexivity] ].
Qed.

(* ------------------------------------------------------------------ *)
(** ** [DirEntry] from bytes *)

Lemma DirEntry_layout :
  filter Struct.is_pad (Struct.layout_from 0 (Struct.expand DirEntries.BASIC_FORMAT)) =
  [(0, Struct.cH); (2, Struct.cH); (4, Struct.cH); (6, Struct.cH); (8, Struct.cH)].
Proof. reflexivity. Qed.

Lemma DirEntry_sizeof : Struct.calcsize DirEntries.BASIC_FORMAT = 10.
Proof. reflexivity. Qed.

(** [DirEntry(raw)] raises [ValueError] unless [raw] holds ten bytes, and
    the entry built from a row packed as ["5H"] is the entry of that row;
    [struct.unpack("HHHHH", ...)] reads the row back. *)
Theorem DirEntry_new_roundtrip :
  (forall raw, length raw <> 10%nat -> DirEntries.DirEntry_new raw = Exc ValueError) /\
  (forall w, DirEntries.row_u16 w ->
     DirEntries.DirEntry_new (DirEntries.pack_row w) = Ok (Directory.DirEntry_init w) /\
     Directory.unpack_row (DirEntries.pack_row w) = w).
Proof.
  split.
  - intros raw Hl. unfold DirEntries.DirEntry_new. rewrite DirEntry_sizeof.
    replace (Z.of_nat (length raw) =? 10) with false by (symmetry; apply Z.eqb_neq; lia).
    reflexivity.
  - intros [[[[w0 w1] w2] w3] w4] (H0 & H1 & H2 & H3 & H4).
    unfold DirEntries.u16 in *. unfold DirEntries.pack_row.
    set (raw := Bytes.pack_le 2 w0 ++ _).
    assert (Hl : Z.of_nat (length raw) = 10) by (unfold raw; field_lengths; reflexivity).
    assert (E0 : Bytes.py_slice raw 0 2 = Bytes.pack_le 2 w0) by (unfold raw; slice_field).
    assert (E1 : Bytes.py_slice raw 2 4 = Bytes.pack_le 2 w1) by (unfold raw; slice_field).
    assert (E2 : Bytes.py_slice raw 4 6 = Bytes.pack_le 2 w2) by (unfold raw; slice_field).
    assert (E3 : Bytes.py_slice raw 6 8 = Bytes.pack_le 2 w3) by (unfold raw; slice_field).
    assert (E4 : Bytes.py_slice raw 8 10 = Bytes.pack_le 2 w4) by (unfold raw; slice_field).
    assert (Hw : forall x, 0 <= x < 65536 -> Bytes.le_int (Bytes.pack_le 2 x) = x).
    { intros x Hx. rewrite le_int_pack_le. apply Z.mod_small. cbn. lia. }
    split.
    + unfold DirEntries.DirEntry_new. rewrite DirEntry_sizeof, Hl. cbn [Z.eqb negb Pos.eqb].
      rewrite unpack_ok by (rewrite DirEntry_sizeof; exact Hl).
      rewrite DirEntry_layout. cbn [map bind]. unfold Struct.decode.
      cbn [Struct.size Struct.signed andb]. cbv [Z.add Pos.add Pos.add_carry Pos.succ].
      rewrite E0, E1, E2, E3, E4, !Hw by assumption. reflexivity.
    + unfold Directory.unpack_row. cbv [Z.mul Z.add Pos.mul Pos.add Pos.add_carry Pos.succ].
      rewrite E0, E1, E2, E3, E4, !Hw by assumption. reflexivity.
Qed.

Lemma DirEntry_new_roundtrip_witness :
  DirEntries.DirEntry_new (repeat x00 9) = Exc ValueError /\
  DirEntries.row_u16 (40960, 0, 12287, 0, 0) /\
  DirEntries.DirEntry_new c9_raw = Ok (Directory.DirEntry_init (40960, 0, 12287, 0, 0)) /\
  Directory.unpack_row c9_raw = (40960, 0, 12287, 0, 0).
Proof.
  assert (Hw : DirEntries.row_u16 (40960, 0, 12287, 0, 0))
    by (cbv [DirEntries.row_u16 DirEntries.u16]; lia).
  split; [apply (proj1 DirEntry_new_roundtrip); discriminate|].
  split; [exact Hw|]. exact (proj2 DirEntry_new_roundtrip (40960, 0, 12287, 0, 0) Hw).
Defined.

(* ------------------------------------------------------------------ *)
(** ** The fields of a [DirEntry] *)

Lemma shiftr_land_mask (x m k : Z) (j : Z) :
  0 <= k -> 0 <= j -> Z.shiftr m k = Z.ones j ->
  Z.shiftr (Z.land x m) k = (x / 2 ^ k) mod 2 ^ j.
Proof.
  intros Hk Hj Hm. rewrite Z.shiftr_land, Hm, Z.land_ones, Z.shiftr_div_pow2 by lia.
  reflexivity.
Qed.

(** [DirEntry.__init__] and [dirSize]: the approximate size is
    [(s + 1) * 2^(9 + 3 b)] with [s] the four bits 10-13 of [w[1]] and
    [b] its bits 14-15 (bits 8 and 9 of the mask [0x3F00] are shifted
    out), so it is a multiple of 512 between 512 bytes and 4 MiB; the
    tag has twelve bits; [dirSize] and [dirOffset] agree with the
    entry's [length] and [Offset]. *)
Theorem DirEntry_fields :
  forall w0 w1 w2 w3 w4,
    let d := Directory.DirEntry_init (w0, w1, w2, w3, w4) in
    Directory.de_length d =
      ((w1 / 1024) mod 16 + 1) * 2 ^ (9 + 3 * ((w1 / 16384) mod 4)) /\
    512 <= Directory.de_length d <= 4194304 /\
    Directory.de_length d mod 512 = 0 /\
    0 <= Directory.de_tag d < 4096 /\
    Directory.dirSize (w0, w1, w2, w3, w4) = Directory.de_length d /\
    Directory.dirOffset (w0, w1, w2, w3, w4) = Directory.de_Offset d.
Proof.
  intros w0 w1 w2 w3 w4 d.
  assert (Hlen : Directory.de_length d =
                 ((w1 / 1024) mod 16 + 1) * 2 ^ (9 + 3 * ((w1 / 16384) mod 4))).
  { unfold d, Directory.DirEntry_init. cbn [Directory.de_length].
    rewrite (shiftr_land_mask w1 16128 10 4), (shiftr_land_mask w1 49152 14 2)
      by (try lia; reflexivity).
    rewrite Z.shiftl_1_l. reflexivity. }
  assert (Hdir : Directory.dirSize (w0, w1, w2, w3, w4) = Directory.de_length d /\
                 Directory.dirOffset (w0, w1, w2, w3, w4) = Directory.de_Offset d)
    by (split; reflexivity).
  split; [exact Hlen|]. rewrite Hlen in *.
  pose proof (Z.mod_pos_bound (w1 / 1024) 16 ltac:(lia)).
  pose proof (Z.mod_pos_bound (w1 / 16384) 4 ltac:(lia)).
  set (s := (w1 / 1024) mod 16) in *. set (g := (w1 / 16384) mod 4) in *.
  split; [|split; [|split]].
  - assert (g = 0 \/ g = 1 \/ g = 2 \/ g = 3) as Hg by lia.
    destruct Hg as [-> | [-> | [-> | ->]]]; cbn; lia.
  - replace (9 + 3 * g) with (9 + 3 * g) by reflexivity.
    rewrite Z.pow_add_r by lia. change (2 ^ 9) with 512.
    replace ((s + 1) * (512 * 2 ^ (3 * g))) with ((s + 1) * 2 ^ (3 * g) * 512) by ring.
    apply Z.mod_mul. lia.
  - unfold d, Directory.DirEntry_init. cbn [Directory.de_tag].
    change 4095 with (Z.ones 12). rewrite Z.land_ones by lia.
    apply Z.mod_pos_bound. reflexivity.
  - exact Hdir.
Qed.

(* ------------------------------------------------------------------ *)
(** ** The rows of [Stripe.heads] *)

Lemma land_255_bounds (x : Z) : 0 <= Z.land x 255 < 256.
Proof.
  change 255 with (Z.ones 8). rewrite Z.land_ones by lia.
  apply Z.mod_pos_bound. reflexivity.
Qed.

Lemma land_sub_mask (x m m' : Z) : Z.land m m' = m' -> Z.land x m' = Z.land (Z.land x m) m'.
Proof. intros H. rewrite <- Z.land_assoc, H. reflexivity. Qed.

Lemma filter_cons_bool {A} (f : A -> bool) (x : A) (l : list A) :
  filter f (x :: l) = if f x then x :: filter f l else filter f l.
Proof. rewrite filter_cons. destruct (f x); reflexivity. Qed.

Lemma elem_of_filter_bool {A} (f : A -> bool) (l : list A) (x : A) :
  In x (filter f l) -> f x = true /\ In x l.
Proof.
  induction l as [|y t IH]; [cbn; tauto|].
  rewrite filter_cons_bool. destruct (f y) eqn:E; cbn.
  - intros [<- | H]; [auto|]. destruct (IH H); auto.
  - intros H. destruct (IH H); auto.
Qed.

(** Every row [Stripe.heads] yields from a [uint16] directory is an
    entry in use ([bool(DirEntry)] holds), with the head bit set and its
    phase bit equal to the stripe's phase. *)
Theorem heads_rows_in_use :
  forall (phase : bool) (directory : list Directory.row) (w : Directory.row),
    Forall DirEntries.row_u16 directory ->
    In w (StripeDir.heads phase directory) ->
    let d := Directory.DirEntry_init w in
    Directory.DirEntry_bool d = true /\ Directory.de_head d = true /\
    Directory.de_phase d = phase.
Proof.
  intros phase directory w Hall Hin d.
  unfold StripeDir.heads in Hin.
  apply elem_of_filter_bool in Hin as [Hh Hin].
  apply elem_of_filter_bool in Hin as [Hn Hin].
  pose proof (proj1 (List.Forall_forall _ _) Hall w Hin) as Hw.
  destruct w as [[[[w0 w1] w2] w3] w4].
  cbv [DirEntries.row_u16 DirEntries.u16] in Hw.
  unfold d, Directory.DirEntry_init, Directory.DirEntry_bool.
  cbn [Directory.de__offset Directory.de_head Directory.de_phase].
  split; [|split].
  - unfold StripeDir.nonzero_offset_mask, StripeDir.u16_add in Hn.
    pose proof (land_255_bounds w1).
    rewrite !Z.shiftl_mul_pow2 by lia.
    apply Z.ltb_lt in Hn. apply Z.ltb_lt.
    destruct (Z.eq_dec w0 0); [|lia].
    destruct (Z.eq_dec (Z.land w1 255) 0); [|lia].
    destruct (Z.eq_dec w4 0); [|lia].
    exfalso. subst w0 w4. rewrite e0 in Hn. vm_compute in Hn. discriminate.
  - unfold StripeDir.head_mask in Hh.
    apply Z.eqb_eq. rewrite (land_sub_mask w2 12288 8192) by reflexivity.
    destruct phase.
    + apply Z.eqb_eq in Hh. rewrite Hh. reflexivity.
    + apply Z.eqb_eq, Z.lxor_eq in Hh. rewrite Hh. reflexivity.
  - unfold StripeDir.head_mask in Hh.
    rewrite (land_sub_mask w2 12288 4096) by reflexivity.
    destruct phase.
    + apply Z.eqb_eq in Hh. rewrite Hh. reflexivity.
    + apply Z.eqb_eq, Z.lxor_eq in Hh. rewrite Hh. reflexivity.
Qed.

Lemma heads_rows_in_use_witness :
  Forall DirEntries.row_u16 [(40960, 0, 12287, 0, 0); (0, 0, 12287, 0, 0)] /\
  In (40960, 0, 12287, 0, 0) (StripeDir.heads false [(40960, 0, 12287, 0, 0); (0, 0, 12287, 0, 0)]) /\
  (let d := Directory.DirEntry_init (40960, 0, 12287, 0, 0) in
   Directory.DirEntry_bool d = true /\ Directory.de_head d = true /\
   Directory.de_phase d = false).
Proof.
  assert (Hall : Forall DirEntries.row_u16 [(40960, 0, 12287, 0, 0); (0, 0, 12287, 0, 0)])
    by (repeat constructor; cbv [DirEntries.row_u16 DirEntries.u16]; lia).
  assert (Hin : In (40960, 0, 12287, 0, 0)
                  (StripeDir.heads false [(40960, 0, 12287, 0, 0); (0, 0, 12287, 0, 0)]))
    by (vm_compute; left; reflexivity).
  split; [exact Hall|]. split; [exact Hin|].
  exact (heads_rows_in_use false _ _ Hall Hin).
Defined.

Lemma nonzero_offset_mask_exact (w : Directory.row) :
  DirEntries.row_u16 w ->
  (let '(w0, w1, _, _, w4) := w in w0 + Z.land w1 255 + w4 < 65536) ->
  StripeDir.nonzero_offset_mask w = negb (StripeDir.raw_offset w =? 0).
Proof.
  destruct w as [[[[w0 w1] w2] w3] w4].
  cbv [DirEntries.row_u16 DirEntries.u16]. intros Hw Hs.
  pose proof (land_255_bounds w1).
  unfold StripeDir.nonzero_offset_mask, StripeDir.raw_offset, StripeDir.u16_add.
  rewrite (Z.mod_small (w0 + Z.land w1 255)) by lia.
  rewrite Z.mod_small by lia.
  destruct (Z.eqb_spec (Z.lor w0 (Z.lor (Z.shiftl (Z.land w1 255) 16) (Z.shiftl w4 24))) 0)
    as [E|E].
  - apply Z.lor_eq_0_iff in E as [-> E]. apply Z.lor_eq_0_iff in E as [E1 E2].
    apply Z.shiftl_eq_0_iff in E1; [|lia]. apply Z.shiftl_eq_0_iff in E2; [|lia].
    rewrite E1, E2. reflexivity.
  - cbn [negb]. apply Z.ltb_lt.
    destruct (Z.eq_dec w0 0) as [->|]; [|lia].
    destruct (Z.eq_dec (Z.land w1 255) 0) as [E1|]; [|lia].
    destruct (Z.eq_dec w4 0) as [->|]; [|lia].
    exfalso. apply E. rewrite E1. reflexivity.
Qed.

(** When no row's offset half-words [w[0] + (w[1] & 0xFF) + w[4]] reach
    [2^16], [Stripe.heads] yields exactly the rows with a nonzero raw
    offset and an in-phase head, in directory order: the [uint16]
    wrap-around is the only way the mask differs from the raw offset. *)
Theorem heads_exact_without_wrap :
  forall (phase : bool) (directory : list Directory.row),
    Forall (fun w => DirEntries.row_u16 w /\
                     let '(w0, w1, _, _, w4) := w in w0 + Z.land w1 255 + w4 < 65536)
           directory ->
    StripeDir.heads phase directory = StripeDir.heads_described phase directory.
Proof.
  intros phase directory Hall.
  unfold StripeDir.heads, StripeDir.heads_described.
  induction Hall as [|w t [Hw Hs] Ht IH]; [reflexivity|].
  rewrite !filter_cons_bool. rewrite (nonzero_offset_mask_exact w Hw Hs).
  destruct (negb (StripeDir.raw_offset w =? 0)); cbn [andb].
  - rewrite filter_cons_bool.
    destruct (StripeDir.head_mask phase w); rewrite IH; reflexivity.
  - exact IH.
Qed.

Lemma heads_exact_without_wrap_witness :
  Forall (fun w => DirEntries.row_u16 w /\
                   let '(w0, w1, _, _, w4) := w in w0 + Z.land w1 255 + w4 < 65536)
         [(40960, 0, 12287, 0, 0); (0, 0, 12287, 0, 0); (1, 2, 8192, 0, 3)] /\
  StripeDir.heads false [(40960, 0, 12287, 0, 0); (0, 0, 12287, 0, 0); (1, 2, 8192, 0, 3)] =
  StripeDir.heads_described false
    [(40960, 0, 12287, 0, 0); (0, 0, 12287, 0, 0); (1, 2, 8192, 0, 3)].
Proof.
  assert (H : Forall (fun w => DirEntries.row_u16 w /\
                   let '(w0, w1, _, _, w4) := w in w0 + Z.land w1 255 + w4 < 65536)
         [(40960, 0, 12287, 0, 0); (0, 0, 12287, 0, 0); (1, 2, 8192, 0, 3)])
    by (repeat constructor; cbv [DirEntries.row_u16 DirEntries.u16]; cbn; lia).
  split; [exact H | exact (heads_exact_without_wrap false _ H)].
Defined.

(* ------------------------------------------------------------------ *)
(** ** [DirEntry.__eq__] *)

Lemma bool_eqb_sym (a b : bool) : Bool.eqb a b = Bool.eqb b a.
Proof. destruct a, b; reflexivity. Qed.

(** [DirEntry.__eq__] is an equivalence, and it compares only the raw
    offset, the tag and the head, pinned and phase bits: two rows with
    the same offset half-words that differ in their size bits (the high
    byte of [w[1]]), their token bit (bit 15 of [w[2]]) or their [next]
    field [w[3]] give equal entries. *)
Theorem DirEntry_eq_ignores :
  (forall d, DirEntries.DirEntry_eq d d = true) /\
  (forall d e, DirEntries.DirEntry_eq d e = DirEntries.DirEntry_eq e d) /\
  (forall d e f, DirEntries.DirEntry_eq d e = true -> DirEntries.DirEntry_eq e f = true ->
                 DirEntries.DirEntry_eq d f = true) /\
  (forall w0 w1 w2 w3 w4 w1' w2' w3',
     Z.land w1 255 = Z.land w1' 255 -> Z.land w2 32767 = Z.land w2' 32767 ->
     DirEntries.DirEntry_eq (Directory.DirEntry_init (w0, w1, w2, w3, w4))
                            (Directory.DirEntry_init (w0, w1', w2', w3', w4)) = true).
Proof.
  unfold DirEntries.DirEntry_eq.
  split; [|split; [|split]].
  - intros d. rewrite !Z.eqb_refl, !Bool.eqb_reflx. reflexivity.
  - intros d e. rewrite (Z.eqb_sym (Directory.de__offset d)), (Z.eqb_sym (Directory.de_tag d)).
    rewrite (bool_eqb_sym (Directory.de_head d)), (bool_eqb_sym (Directory.de_pinned d)),
      (bool_eqb_sym (Directory.de_phase d)).
    reflexivity.
  - intros d e f H1 H2.
    repeat rewrite andb_true_iff in H1, H2.
    destruct H1 as [[[[O1 T1] H1] P1] F1]. destruct H2 as [[[[O2 T2] H2] P2] F2].
    apply Z.eqb_eq in O1, O2, T1, T2. apply Bool.eqb_prop in H1, H2, P1, P2, F1, F2.
    rewrite O2, O1, T2, T1, H2, H1, P2, P1, F2, F1, !Z.eqb_refl, !Bool.eqb_reflx. reflexivity.
  - intros w0 w1 w2 w3 w4 w1' w2' w3' E1 E2. cbn.
    rewrite E1.
    rewrite (land_sub_mask w2 32767 4095), (land_sub_mask w2' 32767 4095),
      (land_sub_mask w2 32767 16384), (land_sub_mask w2' 32767 16384),
      (land_sub_mask w2 32767 8192), (land_sub_mask w2' 32767 8192),
      (land_sub_mask w2 32767 4096), (land_sub_mask w2' 32767 4096) by reflexivity.
    rewrite E2, !Z.eqb_refl, !Bool.eqb_reflx. reflexivity.
Qed.

Lemma DirEntry_eq_ignores_witness :
  Z.land 0 255 = Z.land 17664 255 /\ Z.land 12287 32767 = Z.land 45055 32767 /\
  DirEntries.DirEntry_eq (Directory.DirEntry_init (40960, 0, 12287, 0, 0))
                         (Directory.DirEntry_init (40960, 17664, 45055, 7, 0)) = true.
Proof.
  split; [reflexivity|]. split; [reflexivity|].
  apply (proj2 (proj2 (proj2 DirEntry_eq_ignores))); reflexivity.
Defined.

(* ------------------------------------------------------------------ *)
(** ** [Stripe.getBucket] *)

(** After [Stripe.read], [numBuckets] is the bucket count per segment
    times [numSegs].  While [numSegs] does not exceed the buckets per
    segment, [getBucket(segment, bucket)] returns the same four rows for
    every segment [0 <= segment < numSegs]: [segment * numSegs //
    numBuckets] is 0, so the generator [buckets] walks the buckets of
    the first segment [numSegs] times. *)
Theorem getBucket_ignores_segment :
  forall (directory : list Directory.row) (numSegs perSeg segment bucket : Z),
    0 < numSegs <= perSeg -> 0 <= segment < numSegs ->
    StripeGet.getBucket directory numSegs (perSeg * numSegs) segment bucket =
    StripeGet.getBucket directory numSegs (perSeg * numSegs) 0 bucket.
Proof.
  intros directory nS bps i j Hs Hi.
  unfold StripeGet.getBucket, StripeRead.floordiv.
  replace (bps * nS =? 0) with false by (symmetry; apply Z.eqb_neq; nia).
  cbn [bind]. rewrite (Z.div_small (i * nS)) by nia. reflexivity.
Qed.

Lemma getBucket_ignores_segment_witness :
  0 < 2 <= 4 /\ 0 <= 1 < 2 /\
  StripeGet.getBucket (map (fun k => (k, 0, 0, 0, 0)) (seqZ 0 32)) 2 (4 * 2) 1 3 =
  StripeGet.getBucket (map (fun k => (k, 0, 0, 0, 0)) (seqZ 0 32)) 2 (4 * 2) 0 3.
Proof. split; [lia|]. split; [lia|]. apply getBucket_ignores_segment; lia. Defined.

(* ------------------------------------------------------------------ *)
(** ** [Stripe.fetchWithFile] *)

Lemma length_py_slice_0 {A} (l : list A) (n : Z) :
  0 <= n -> Z.of_nat (length (Bytes.py_slice l 0 n)) = Z.min n (Z.of_nat (length l)).
Proof.
  intros Hn. unfold Bytes.py_slice, Bytes.slice_bound. cbn [Z.ltb Z.compare].
  replace (n <? 0) with false by (symmetry; apply Z.ltb_ge; lia).
  rewrite length_firstn, length_skipn. lia.
Qed.

(** [fetchWithFile] never returns: a buffer shorter than a Doc header
    ends in the [ValueError] handler, whose [utils.log_exc] call raises
    [AttributeError]; otherwise [doc.sizeof()] calls the [int]
    [Doc.sizeof] and raises [TypeError], whatever [strict] is.  (The
    buffer is [len(d)] bytes, at least 512 for an entry of the
    directory.) *)
Theorem fetchWithFile_raises :
  forall (docbuff : list byte) (strict : bool),
    StripeGet.fetchWithFile docbuff strict =
    Exc (if Z.of_nat (length docbuff) <? 72 then AttributeError else TypeError).
Proof.
  intros docbuff strict. unfold StripeGet.fetchWithFile, Directory.Doc_from_buffer.
  rewrite length_py_slice_0 by (unfold Directory.Doc_sizeof; lia).
  change Directory.Doc_sizeof with 72.
  destruct (Z.ltb_spec (Z.of_nat (length docbuff)) 72).
  - replace (Z.min 72 (Z.of_nat (length docbuff)) <? 72) with true
      by (symmetry; apply Z.ltb_lt; lia).
    reflexivity.
  - replace (Z.min 72 (Z.of_nat (length docbuff)) <? 72) with false
      by (symmetry; apply Z.ltb_ge; lia).
    reflexivity.
Qed.

(* ------------------------------------------------------------------ *)
(** ** [SORdirSize] on a stripe too small for one bucket *)

(** [SORdirSize] divides by the segment count it has just computed: when
    the stripe is shorter than four average objects the bucket count is
    0, so is the segment count, and [-buckets // segs] raises
    [ZeroDivisionError]; a zero average object size raises at once.
    [Stripe.read] then raises it for every stripe shorter than
    [4 * avgObjSize] bytes. *)
Theorem SORdirSize_small_stripe :
  (forall start length, StripeRead.SORdirSize 0 start length = Exc ZeroDivisionError) /\
  (forall avgObjSize start length,
     0 < avgObjSize -> 0 <= length < 4 * avgObjSize ->
     StripeRead.SORdirSize avgObjSize start length = Exc ZeroDivisionError) /\
  (forall avgObjSize disk s,
     0 < avgObjSize -> 0 <= StripeRead.st_length s ->
     StripeRead.st_length s * Utils.STORE_BLOCK_SIZE < 4 * avgObjSize ->
     StripeRead.read avgObjSize disk s = Exc ZeroDivisionError).
Proof.
  assert (Hsmall : forall avg start length,
             0 < avg -> 0 <= length < 4 * avg ->
             StripeRead.SORdirSize avg start length = Exc ZeroDivisionError).
  { intros avg start len Ha Hl.
    unfold StripeRead.SORdirSize, StripeRead.singleStep, StripeRead.floordiv.
    replace (4 * avg =? 0) with false by (symmetry; apply Z.eqb_neq; lia).
    cbn [bind]. replace (len - start + start) with len by ring.
    rewrite (Z.div_small len (4 * avg)) by lia. reflexivity. }
  split; [|split].
  - intros start len. reflexivity.
  - exact Hsmall.
  - intros avg disk s Ha Hl Hs. unfold StripeRead.read.
    rewrite Hsmall by (unfold Utils.STORE_BLOCK_SIZE in *; lia). reflexivity.
Qed.

Lemma SORdirSize_small_stripe_witness :
  StripeRead.SORdirSize 8000 16384 24576 = Exc ZeroDivisionError /\
  StripeRead.read 8000 c1_disk x_small_stripe = Exc ZeroDivisionError.
Proof.
  destruct SORdirSize_small_stripe as [_ [H2 H3]].
  split; [apply H2; lia|]. apply H3; unfold x_small_stripe, Utils.STORE_BLOCK_SIZE; cbn; lia.
Defined.

(* ------------------------------------------------------------------ *)
(** ** [Alternate.__init__] *)

Lemma py_index_ok (l : list Z) (i : nat) :
  (i < length l)%nat -> StripeRead.py_index l i = Ok (nth i l 0).
Proof.
  intros H. unfold StripeRead.py_index.
  rewrite (nth_error_nth' l 0 H). reflexivity.
Qed.

Lemma HTTPHdr_args_slice (l : list Z) (a b : Z) :
  0 <= a -> b = a + 12 -> b <= Z.of_nat (length l) ->
  HttpMore.HTTPHdr_args (Bytes.py_slice l a b) = Ok (Bytes.py_slice l a b).
Proof.
  intros Ha Hb Hl. unfold HttpMore.HTTPHdr_args.
  pose proof (length_py_slice_in l a b ltac:(lia) Hl) as E.
  replace (length (Bytes.py_slice l a b)) with 12%nat by lia. reflexivity.
Qed.

(** [Alternate(basicData)] on the 44 values of the unpacked prefix: it
    raises [ValueError] exactly when the first value is none of
    [MAGIC], [MAGIC_ALIVE] and [MAGIC_DEAD], and otherwise takes the
    twelve request and twelve response fields from [basicData[11:23]]
    and [basicData[23:35]], the fragment count from [basicData[37]] and
    the integral fragment offsets from [basicData[39:43]]. *)
Theorem Alternate_init_outcome :
  forall basicData : list Z,
    length basicData = 44%nat ->
    match HttpMore.Alternate_init basicData with
    | Ok a =>
        In (nth 0 basicData 0) Alternate_magics /\
        a = HttpMore.mkAlternate (nth 0 basicData 0) (Bytes.py_slice basicData 11 23)
              (Bytes.py_slice basicData 23 35) (nth 37 basicData 0)
              (Bytes.py_slice basicData 39 43) []
    | Exc e => e = ValueError /\ ~ In (nth 0 basicData 0) Alternate_magics
    end.
Proof.
  intros l Hl. unfold HttpMore.Alternate_init.
  rewrite !py_index_ok by lia. cbn [bind].
  unfold Alternate_magics. cbn [In].
  destruct (Z.eqb_spec (nth 0 l 0) HttpMore.Alternate_MAGIC) as [E0|E0];
  [|destruct (Z.eqb_spec (nth 0 l 0) HttpMore.Alternate_MAGIC_ALIVE) as [E1|E1];
   [|destruct (Z.eqb_spec (nth 0 l 0) HttpMore.Alternate_MAGIC_DEAD) as [E2|E2]]];
  cbn [bind];
  try (split; [reflexivity | intros [H|[H|[H|[]]]]; congruence]).
  all: rewrite (HTTPHdr_args_slice l 11 23), (HTTPHdr_args_slice l 23 35) by lia; cbn [bind].
  all: split; [first [left; congruence | right; left; congruence
                     | right; right; left; congruence] | reflexivity].
Qed.

Lemma Alternate_init_outcome_witness :
  length (HttpMore.Alternate_MAGIC_ALIVE :: repeat 0 43) = 44%nat /\
  match HttpMore.Alternate_init (HttpMore.Alternate_MAGIC_ALIVE :: repeat 0 43) with
  | Ok a =>
      In (nth 0 (HttpMore.Alternate_MAGIC_ALIVE :: repeat 0 43) 0) Alternate_magics /\
      a = HttpMore.mkAlternate (nth 0 (HttpMore.Alternate_MAGIC_ALIVE :: repeat 0 43) 0)
            (Bytes.py_slice (HttpMore.Alternate_MAGIC_ALIVE :: repeat 0 43) 11 23)
            (Bytes.py_slice (HttpMore.Alternate_MAGIC_ALIVE :: repeat 0 43) 23 35)
            (nth 37 (HttpMore.Alternate_MAGIC_ALIVE :: repeat 0 43) 0)
            (Bytes.py_slice (HttpMore.Alternate_MAGIC_ALIVE :: repeat 0 43) 39 43) []
  | Exc e => e = ValueError /\
             ~ In (nth 0 (HttpMore.Alternate_MAGIC_ALIVE :: repeat 0 43) 0) Alternate_magics
  end.
Proof. split; [reflexivity|]. apply Alternate_init_outcome. reflexivity. Defined.

(* ------------------------------------------------------------------ *)
(** ** The prefix of [Alternate.fromBuffer] and [Stripe.firstDocs] *)

Lemma Alternate_sizeof_248 : Http.Alternate_sizeof = 248.
Proof. reflexivity. Qed.

Lemma Alternate_format_size : Struct.calcsize HttpMore.Alternate_FORMAT = 248.
Proof. reflexivity. Qed.

Lemma Alternate_layout_head :
  exists tl, filter Struct.is_pad (Struct.layout_from 0 (Struct.expand HttpMore.Alternate_FORMAT)) =
             (0, Struct.cI) :: tl.
Proof. eexists. reflexivity. Qed.

Lemma fromBuffer_short after (raw : list byte) (current : list HttpMore.Alternate) :
  (0 < length raw < 248)%nat ->
  HttpMore.fromBuffer after raw current = Exc StructError.
Proof.
  intros Hl. unfold HttpMore.fromBuffer.
  destruct raw as [|b t] eqn:Hr; [cbn in Hl; lia|]. rewrite <- Hr. rewrite <- Hr in Hl.
  rewrite unpack_bad; [reflexivity|].
  rewrite Alternate_format_size, Alternate_sizeof_248, length_py_slice_0 by lia. lia.
Qed.

(** [Alternate.fromBuffer(raw, current)]: an empty buffer returns
    [current]; a non-empty buffer shorter than the 248-byte prefix
    raises [struct.error], which [fromBuffer] does not catch; a buffer
    that holds the prefix but whose first four bytes are none of the
    three Alternate magics returns [current] unchanged. *)
Theorem fromBuffer_prefix :
  forall after (raw : list byte) (current : list HttpMore.Alternate),
    (raw = [] -> HttpMore.fromBuffer after raw current = Ok current) /\
    ((0 < length raw < 248)%nat -> HttpMore.fromBuffer after raw current = Exc StructError) /\
    ((248 <= length raw)%nat ->
     ~ In (Bytes.le_int (Bytes.py_slice raw 0 4)) Alternate_magics ->
     HttpMore.fromBuffer after raw current = Ok current).
Proof.
  intros after raw current. split; [|split].
  - intros ->. reflexivity.
  - apply fromBuffer_short.
  - intros Hl Hm. unfold HttpMore.fromBuffer.
    destruct raw as [|b t] eqn:Hr; [cbn in Hl; lia|]. rewrite <- Hr in *.
    rewrite unpack_ok
      by (rewrite Alternate_format_size, Alternate_sizeof_248, length_py_slice_0; lia).
    destruct Alternate_layout_head as [tl Htl]. rewrite Htl. cbn [map bind].
    unfold HttpMore.Alternate_init, StripeRead.py_index. cbn [nth_error bind].
    assert (Hdec : Struct.decode (Bytes.py_slice raw 0 Http.Alternate_sizeof) (0, Struct.cI) =
                   Bytes.le_int (Bytes.py_slice raw 0 4)).
    { unfold Struct.decode. cbn [Struct.size Struct.signed andb].
      rewrite Alternate_sizeof_248, py_slice_py_slice by lia. reflexivity. }
    rewrite Hdec.
    unfold Alternate_magics in Hm. cbn [In] in Hm.
    set (m := Bytes.le_int (Bytes.py_slice raw 0 4)) in *.
    replace (m =? HttpMore.Alternate_MAGIC) with false by (symmetry; apply Z.eqb_neq; intuition).
    replace (m =? HttpMore.Alternate_MAGIC_ALIVE) with false
      by (symmetry; apply Z.eqb_neq; intuition).
    replace (m =? HttpMore.Alternate_MAGIC_DEAD) with false
      by (symmetry; apply Z.eqb_neq; intuition).
    reflexivity.
Qed.

Lemma fromBuffer_prefix_witness :
  (100 <= length (repeat x00 300))%nat /\
  HttpMore.fromBuffer (fun _ _ c => Ok c) (repeat x00 100) [] = Exc StructError /\
  HttpMore.fromBuffer (fun _ _ c => Ok c) (repeat x00 300) [] = Ok [].
Proof.
  destruct (fromBuffer_prefix (fun _ _ c => Ok c) (repeat x00 100) []) as [_ [H2 _]].
  destruct (fromBuffer_prefix (fun _ _ c => Ok c) (repeat x00 300) []) as [_ [_ H3]].
  split; [cbn; lia|]. split.
  - apply H2. cbn. lia.
  - apply H3; [cbn; lia|]. vm_compute. intros [H|[H|[H|[]]]]; discriminate.
Defined.

Lemma py_slice_empty {A} (l : list A) (a b : Z) :
  0 <= a -> 0 <= b <= a -> Bytes.py_slice l a b = [].
Proof.
  intros Ha Hb. pose proof (py_slice_length l a b Ha ltac:(lia)) as H.
  replace (Z.to_nat _) with 0%nat in H by lia.
  destruct (Bytes.py_slice l a b); [reflexivity | cbn in H; lia].
Qed.

(** One step of [Stripe.firstDocs] on a Doc with the valid magic: with
    [hlen <= 72] the alternates region [buffer[72:hlen]] is empty and the
    Doc is yielded without alternates; with [72 < hlen < 320] the region
    holds fewer than the 248 bytes of an Alternate prefix, so
    [fromBuffer] raises [struct.error] and the handler's
    [utils.log_exc] call raises [AttributeError]. *)
Theorem firstDoc_step_short_header :
  forall after (buffer : list byte) (doc : Directory.Doc),
    Directory.Doc_from_buffer (Bytes.py_slice buffer 0 Directory.Doc_sizeof) = Ok doc ->
    Directory.doc_magic doc = Directory.Doc_MAGIC ->
    (0 < Directory.doc_hlen doc <= 72 ->
     HttpMore.firstDoc_step after buffer =
     Ok (Some (doc, [], Bytes.py_slice buffer (72 + Directory.doc_hlen doc)
                          (Directory.doc_length doc)))) /\
    (72 < Directory.doc_hlen doc < 320 ->
     Directory.doc_hlen doc <= Z.of_nat (length buffer) ->
     HttpMore.firstDoc_step after buffer = Exc AttributeError).
Proof.
  intros after buffer doc Hd Hm.
  unfold HttpMore.firstDoc_step. rewrite Hd. cbn [bind]. rewrite Hm, Z.eqb_refl.
  change Directory.Doc_sizeof with 72.
  split.
  - intros Hh. replace (0 <? Directory.doc_hlen doc) with true by (symmetry; apply Z.ltb_lt; lia).
    cbn [andb]. rewrite py_slice_empty by lia. reflexivity.
  - intros Hh Hl. replace (0 <? Directory.doc_hlen doc) with true by (symmetry; apply Z.ltb_lt; lia).
    cbn [andb]. rewrite fromBuffer_short.
    + reflexivity.
    + pose proof (length_py_slice_in buffer 72 (Directory.doc_hlen doc) ltac:(lia) Hl). lia.
Qed.

Lemma firstDoc_step_short_header_witness :
  Directory.Doc_from_buffer (Bytes.py_slice c4_buffer 0 Directory.Doc_sizeof) =
    Ok (Directory.mkDoc Directory.Doc_MAGIC 300 300 100) /\
  HttpMore.firstDoc_step (fun _ _ c => Ok c) c4_buffer = Exc AttributeError.
Proof.
  assert (Hd : Directory.Doc_from_buffer (Bytes.py_slice c4_buffer 0 Directory.Doc_sizeof) =
               Ok (Directory.mkDoc Directory.Doc_MAGIC 300 300 100)) by (vm_compute; reflexivity).
  split; [exact Hd|].
  apply (proj2 (firstDoc_step_short_header (fun _ _ c => Ok c) c4_buffer _ Hd eq_refl));
    cbn; [lia|]. vm_compute. discriminate.
Defined.

(* ------------------------------------------------------------------ *)
(** ** [unpackHdrHeapObjImpl] *)

Lemma pack_le_app (m n : nat) (v : Z) :
  Bytes.pack_le (m + n) v = Bytes.pack_le m v ++ Bytes.pack_le n (v / 256 ^ Z.of_nat m).
Proof.
  revert v; induction m as [|m IH]; intros v.
  - cbn. rewrite Z.div_1_r. reflexivity.
  - cbn [Nat.add Bytes.pack_le app]. rewrite IH. f_equal. f_equal. f_equal.
    rewrite Z.div_div by (try apply Z.pow_pos_nonneg; lia).
    rewrite Nat2Z.inj_succ, Z.pow_succ_r by lia. reflexivity.
Qed.

(** [unpackHdrHeapObjImpl(obj)] raises [struct.error] unless [obj] holds
    four bytes, and decodes the 32-bit word of the C bit fields
    [m_type:8, m_length:20, m_aligned_flags:4] (little-endian, in that
    order) back into its three fields. *)
Theorem unpackHdrHeapObjImpl_roundtrip :
  (forall obj, length obj <> 4%nat -> HttpMore.unpackHdrHeapObjImpl obj = Exc StructError) /\
  (forall t len flags,
     0 <= t < 256 -> 0 <= len < 2 ^ 20 -> 0 <= flags < 16 ->
     HttpMore.unpackHdrHeapObjImpl (Bytes.pack_le 4 (t + 2 ^ 8 * len + 2 ^ 28 * flags)) =
     Ok (HttpMore.mkHdrHeapObjImpl t len flags)).
Proof.
  split.
  - intros obj Hl. unfold HttpMore.unpackHdrHeapObjImpl.
    replace (Z.of_nat (length obj) =? 4) with false by (symmetry; apply Z.eqb_neq; lia).
    reflexivity.
  - intros t len fl Ht Hl Hf.
    set (v := t + 2 ^ 8 * len + 2 ^ 28 * fl).
    assert (Hv1 : v / 256 = len + 2 ^ 20 * fl).
    { unfold v. replace (t + 2 ^ 8 * len + 2 ^ 28 * fl) with ((len + 2 ^ 20 * fl) * 256 + t)
        by (cbn; ring).
      rewrite Z.div_add_l by lia. rewrite (Z.div_small t) by lia. ring. }
    assert (Hv2 : v / 256 / 256 ^ Z.of_nat 2 = fl * 16 + len / 65536).
    { rewrite Hv1. change (256 ^ Z.of_nat 2) with 65536.
      replace (len + 2 ^ 20 * fl) with (fl * 16 * 65536 + len) by (cbn; ring).
      rewrite Z.div_add_l by lia. reflexivity. }
    assert (Hr : 0 <= len / 65536 < 16).
    { split; [apply Z.div_pos; lia|]. apply Z.div_lt_upper_bound; cbn in *; lia. }
    change 4%nat with (1 + (2 + 1))%nat.
    rewrite pack_le_app, pack_le_app. change (256 ^ Z.of_nat 1) with 256.
    rewrite Hv2, Hv1.
    unfold HttpMore.unpackHdrHeapObjImpl.
    rewrite !length_app, !length_pack_le. cbn [Nat.add Z.of_nat Z.eqb negb].
    set (raw := Bytes.pack_le 1 v ++ _).
    assert (E0 : Bytes.py_slice raw 0 1 = Bytes.pack_le 1 v) by (unfold raw; slice_field).
    assert (E1 : Bytes.py_slice raw 1 3 = Bytes.pack_le 2 (len + 2 ^ 20 * fl))
      by (unfold raw; slice_field).
    assert (E2 : Bytes.py_slice raw 3 4 = Bytes.pack_le 1 (fl * 16 + len / 65536))
      by (unfold raw; slice_field).
    rewrite E0, E1, E2, length_pack_le. cbn [Z.of_nat Z.eqb Pos.eqb bind].
    rewrite !le_int_pack_le. change (2 ^ (8 * Z.of_nat 1)) with 256.
    change (2 ^ (8 * Z.of_nat 2)) with 65536.
    rewrite (Z.mod_small (fl * 16 + len / 65536)) by lia.
    assert (Ht' : v mod 256 = t).
    { unfold v. replace (t + 2 ^ 8 * len + 2 ^ 28 * fl) with (t + (len + 2 ^ 20 * fl) * 256)
        by (cbn; ring).
      rewrite Z.mod_add by lia. apply Z.mod_small. lia. }
    assert (Hl' : (len + 2 ^ 20 * fl) mod 65536 = len mod 65536).
    { replace (len + 2 ^ 20 * fl) with (len + (fl * 16) * 65536) by (cbn; ring).
      apply Z.mod_add. lia. }
    assert (Hf' : Z.shiftr (Z.land 240 (fl * 16 + len / 65536)) 4 = fl).
    { rewrite Z.shiftr_land, Z.land_comm. change (Z.shiftr 240 4) with (Z.ones 4).
      rewrite Z.land_ones, Z.shiftr_div_pow2 by lia. change (2 ^ 4) with 16.
      replace (fl * 16 + len / 65536) with (len / 65536 + fl * 16) by ring.
      rewrite Z.div_add by lia. rewrite (Z.div_small (len / 65536)) by lia.
      apply Z.mod_small. lia. }
    assert (Hm' : Z.land (fl * 16 + len / 65536) 15 = len / 65536).
    { change 15 with (Z.ones 4). rewrite Z.land_ones by lia. change (2 ^ 4) with 16.
      replace (fl * 16 + len / 65536) with (len / 65536 + fl * 16) by ring.
      rewrite Z.mod_add by lia. apply Z.mod_small. lia. }
    rewrite Ht', Hl', Hf', Hm', Z.shiftl_mul_pow2 by lia.
    change (Z.of_nat 4 =? 4) with true. change (Z.of_nat 2 =? 2) with true. cbn [negb bind].
    f_equal. f_equal. pose proof (Z.div_mod len 65536 ltac:(lia)). lia.
Qed.

Lemma unpackHdrHeapObjImpl_roundtrip_witness :
  HttpMore.unpackHdrHeapObjImpl [x01; x02] = Exc StructError /\
  HttpMore.unpackHdrHeapObjImpl (Bytes.pack_le 4 (3 + 2 ^ 8 * 70000 + 2 ^ 28 * 5)) =
  Ok (HttpMore.mkHdrHeapObjImpl 3 70000 5).
Proof.
  split; [apply (proj1 unpackHdrHeapObjImpl_roundtrip); discriminate|].
  apply (proj2 unpackHdrHeapObjImpl_roundtrip); lia.
Defined.

(* ------------------------------------------------------------------ *)
(** ** [unpackHeap] *)

Lemma align_aligned (x u : Z) : x mod u = 0 -> Utils.align x u = x.
Proof. intros H. unfold Utils.align. rewrite H. reflexivity. Qed.

(** The loop of [unpackHeap]: an object of length 0 at an aligned offset
    inside the heap, whose type has a registered unpacker that succeeds,
    leaves [offset] where it is, so the loop never exits; a truncated
    object header, or an object of an unregistered type shorter than its
    own 4-byte header, raises [struct.error], and the handler's
    [utils.log_exc] call raises [AttributeError] instead of returning the
    objects read so far. *)
Theorem unpackHeap_stuck_or_raises :
  forall unpack_funcs (heap : list byte) (offset size : Z),
    offset < size ->
    (forall o f l,
       offset mod 8 = 0 ->
       HttpMore.unpackHdrHeapObjImpl (Bytes.py_slice heap offset (offset + 4)) = Ok o ->
       HttpMore.ho_length o = 0 -> unpack_funcs (HttpMore.ho_Type o) = Some f ->
       f heap (offset + 4) = Ok l ->
       forall fuel ret, HttpMore.unpackHeap unpack_funcs fuel heap offset size ret = None) /\
    (forall fuel ret,
       (length (Bytes.py_slice heap offset (offset + 4)) <> 4%nat \/
        exists o, HttpMore.unpackHdrHeapObjImpl (Bytes.py_slice heap offset (offset + 4)) = Ok o /\
                  unpack_funcs (HttpMore.ho_Type o) = None /\ HttpMore.ho_length o < 4) ->
       HttpMore.unpackHeap unpack_funcs (S fuel) heap offset size ret =
       Some (Exc AttributeError)).
Proof.
  intros funcs heap offset size Hs. split.
  - intros o f l Ha Ho Hl Hf Hfl fuel.
    induction fuel as [|fuel IH]; intros ret; [reflexivity|].
    cbn [HttpMore.unpackHeap].
    replace (offset <? size) with true by (symmetry; apply Z.ltb_lt; lia).
    unfold HttpMore.unpackHeap_body. rewrite Ho. cbn [bind]. rewrite Hf, Hfl.
    cbn [bind try_except]. rewrite Hl, Z.add_0_r.
    unfold Utils.POINTER_SIZE. rewrite align_aligned by exact Ha. apply IH.
  - intros fuel ret Hbad. cbn [HttpMore.unpackHeap].
    replace (offset <? size) with true by (symmetry; apply Z.ltb_lt; lia).
    unfold HttpMore.unpackHeap_body.
    destruct Hbad as [Hl | [o [Ho [Hf Hlen]]]].
    + unfold HttpMore.unpackHdrHeapObjImpl at 1.
      replace (Z.of_nat (length (Bytes.py_slice heap offset (offset + 4))) =? 4) with false
        by (symmetry; apply Z.eqb_neq; lia).
      reflexivity.
    + rewrite Ho. cbn [bind]. rewrite Hf.
      replace (HttpMore.ho_length o - 4 <? 0) with true by (symmetry; apply Z.ltb_lt; lia).
      reflexivity.
Qed.

Lemma unpackHeap_stuck_or_raises_witness :
  HttpMore.unpackHeap x_heap_funcs 1000 [x02; x00; x00; x00; x00; x00; x00; x00] 0 8 [] = None /\
  HttpMore.unpackHeap x_heap_funcs 1000 [x00; x00; x00; x00; x00; x00; x00; x00] 0 8 [] =
    Some (Exc AttributeError) /\
  HttpMore.unpackHeap x_heap_funcs 1000 [x02; x00] 0 8 [] = Some (Exc AttributeError).
Proof.
  split; [|split].
  - apply (proj1 (unpackHeap_stuck_or_raises x_heap_funcs _ 0 8 ltac:(lia))
             (HttpMore.mkHdrHeapObjImpl 2 0 0) (fun _ _ => Ok []) []); reflexivity.
  - apply (proj2 (unpackHeap_stuck_or_raises x_heap_funcs _ 0 8 ltac:(lia)) 999%nat []).
    right. exists (HttpMore.mkHdrHeapObjImpl 0 0 0). split; [reflexivity|]. split; [reflexivity|].
    cbn. lia.
  - apply (proj2 (unpackHeap_stuck_or_raises x_heap_funcs _ 0 8 ltac:(lia)) 999%nat []).
    left. discriminate.
Defined.

(* ------------------------------------------------------------------ *)
(** ** [HDRHeap.__init__] *)

Lemma HDRHeap_sizeof_136 : Struct.calcsize HttpMore.HDRHeap_BASIC_FORMAT = 136.
Proof. reflexivity. Qed.

Lemma HDRHeap_layout_head :
  exists tl, filter Struct.is_pad (Struct.layout_from 0 (Struct.expand HttpMore.HDRHeap_BASIC_FORMAT)) =
             (0, Struct.cI) :: tl.
Proof. eexists. reflexivity. Qed.

(** [HDRHeap(raw)]: a buffer of any length but [sizeof()] (136 bytes)
    ends in the [struct.error] handler, whose [utils.log_exc] call raises
    [AttributeError] instead of the [ValueError] it means to raise;
    136 bytes whose first word is not [0xDCBAFEED] raise
    [ValueError]. *)
Theorem HDRHeap_init_errors :
  (forall raw, length raw <> 136%nat -> HttpMore.HDRHeap_init raw = Exc AttributeError) /\
  (forall raw, length raw = 136%nat ->
     Bytes.le_int (Bytes.py_slice raw 0 4) <> HttpMore.HDRHeap_MAGIC ->
     HttpMore.HDRHeap_init raw = Exc ValueError).
Proof.
  split.
  - intros raw Hl. unfold HttpMore.HDRHeap_init.
    rewrite unpack_bad by (rewrite HDRHeap_sizeof_136; lia). reflexivity.
  - intros raw Hl Hm. unfold HttpMore.HDRHeap_init.
    rewrite unpack_ok by (rewrite HDRHeap_sizeof_136, Hl; reflexivity).
    destruct HDRHeap_layout_head as [tl Htl]. rewrite Htl.
    cbn [map try_except bind]. unfold StripeRead.py_index. cbn [nth_error bind].
    unfold Struct.decode at 1. cbn [Struct.size Struct.signed andb].
    change (0 + 4) with 4.
    apply Z.eqb_neq in Hm. rewrite Hm. reflexivity.
Qed.

Lemma HDRHeap_init_errors_witness :
  HttpMore.HDRHeap_init (repeat x00 72) = Exc AttributeError /\
  HttpMore.HDRHeap_init (repeat x00 136) = Exc ValueError.
Proof.
  split; [apply (proj1 HDRHeap_init_errors); discriminate|].
  apply (proj2 HDRHeap_init_errors); [reflexivity | vm_compute; discriminate].
Defined.

(* ------------------------------------------------------------------ *)
(** ** [URLtoString] *)

Lemma str_join_spec (l : list (option string)) :
  match HttpMore.str_join l with
  | Exc e => e = TypeError /\ In None l
  | Ok _ => ~ In None l
  end.
Proof.
  induction l as [|[s|] t IH]; cbn [HttpMore.str_join].
  - cbn. tauto.
  - destruct (HttpMore.str_join t); cbn [bind].
    + intros [H|H]; [discriminate | tauto].
    + destruct IH. split; [assumption | right; assumption].
  - split; [reflexivity | left; reflexivity].
Qed.

(** [URLtoString(url)]: [''.join] raises [TypeError] exactly when the
    protocol or the host is [None]; the user, password, port and path are
    joined only when they are set and truthy, so they never make it fail,
    and no other exception is raised. *)
Theorem URLtoString_fails_iff (u : Http.URL) :
  match HttpMore.URLtoString u with
  | Exc e => e = TypeError /\ (Http.url_protocol u = None \/ Http.url_host u = None)
  | Ok _ => Http.url_protocol u <> None /\ Http.url_host u <> None
  end.
Proof.
  destruct u as [pr us pw h po pa pp q]. unfold HttpMore.URLtoString. cbn [Http.url_protocol Http.url_user
    Http.url_passwd Http.url_host Http.url_port Http.url_path].
  match goal with |- match HttpMore.str_join ?L with _ => _ end => pose proof (str_join_spec L) as HL;
    destruct (HttpMore.str_join L) end;
  (destruct us as [us|]; destruct pw as [pw|]; cbn [HttpMore.str_truthy andb] in *;
   try destruct (negb (us =? EmptyString)%string); try destruct (negb (pw =? EmptyString)%string); cbn [andb] in *;
   destruct po as [p|]; try destruct (p =? 0);
   destruct pa as [pa|]; cbn [HttpMore.str_truthy] in *; try destruct (negb (pa =? EmptyString)%string);
   rewrite ?in_app_iff in HL; cbn [In] in HL;
   destruct pr, h; intuition congruence).
Qed.


(* ------------------------------------------------------------------ *)
(** ** [parseVolumeConfig] *)

Lemma bind_Ok_inv {A B} (m : result A) (k : A -> result B) (v : B) :
  bind m k = Ok v -> exists a, m = Ok a /\ k a = Ok v.
Proof. destruct m as [a|e]; cbn; [eauto | discriminate]. Qed.

Ltac inv_bind H :=
  repeat match type of H with
         | bind _ _ = Ok _ =>
             let a := fresh "a" in let Ha := fresh "Ha" in
             apply bind_Ok_inv in H; destruct H as [a [Ha H]]
         end.

Lemma try_except_Ok_inv {A} (m : result A) caught h (v : A) :
  try_except m caught h = Ok v -> m = Ok v \/ exists e, m = Exc e /\ h e = Ok v.
Proof.
  destruct m as [a|e]; cbn; [left; congruence|].
  destruct (existsb (exn_eqb e) caught); [right; eauto | discriminate].
Qed.

Lemma volume_line_step sl tc contents ret tp line ret' tp' :
  volumes_inv ret tp ->
  Config.volume_line sl tc contents (ret, tp) line = Ok (ret', tp') ->
  volumes_inv ret' tp' /\ (forall k, is_Some (ret !! k) -> is_Some (ret' !! k)).
Proof.
  intros [Htp Hv] H. unfold Config.volume_line in H.
  destruct (_ || _); [injection H as <- <-; split; [split|]; auto|].
  inv_bind H.
  destruct (Config.py_in _ _); [discriminate|].
  inv_bind H. destruct a5 as [bytes tp2]. inv_bind H. injection H as <- <-.
  assert (tp2 <= 100) as Htp2.
  { destruct (Config.endswith _ _); inv_bind Ha5.
    - destruct (negb sl); [discriminate|].
      inv_bind Ha5. destruct (100 <? _) eqn:E; [discriminate|].
      inv_bind Ha5. injection Ha5 as _ <-. apply Z.ltb_ge in E. lia.
    - injection Ha5 as _ <-. exact Htp. }
  split; [split|].
  - exact Htp2.
  - intros k v Hk. apply lookup_insert_Some in Hk as [[_ <-] | [_ Hk]]; [reflexivity|].
    exact (Hv k v Hk).
  - intros k Hk. apply lookup_insert_is_Some'. right. exact Hk.
Qed.

Lemma volume_lines_steps sl tc contents lines : forall ret tp ret' tp',
  volumes_inv ret tp ->
  Config.volume_lines sl tc contents (ret, tp) lines = Ok (ret', tp') ->
  volumes_inv ret' tp' /\ (forall k, is_Some (ret !! k) -> is_Some (ret' !! k)).
Proof.
  induction lines as [|l t IH]; intros ret tp ret' tp' Hi H; cbn [Config.volume_lines] in H.
  - injection H as <- <-. auto.
  - inv_bind H. destruct a as [r1 t1].
    destruct (volume_line_step _ _ _ _ _ _ _ _ Hi Ha) as [Hi1 Hd1].
    destruct (IH _ _ _ _ Hi1 H) as [Hi2 Hd2]. auto.
Qed.

(** [parseVolumeConfig(contents)]: running the loop from any dictionary
    of HTTP volumes whose percentages add up to at most 100, a completed
    run keeps every volume already defined, maps every volume to
    [CacheType(1)] (HTTP), and leaves the percentage total at most 100;
    so every volume of a parsed [volume.config] is an HTTP volume. *)
Theorem volume_config_invariant (storage_loaded : bool) (total : Z) :
  (forall contents lines ret tp ret' tp',
     tp <= 100 -> (forall k v, ret !! k = Some v -> fst v = Utils.HTTP) ->
     Config.volume_lines storage_loaded total contents (ret, tp) lines = Ok (ret', tp') ->
     tp' <= 100 /\ (forall k v, ret' !! k = Some v -> fst v = Utils.HTTP) /\
     (forall k, is_Some (ret !! k) -> is_Some (ret' !! k))) /\
  (forall contents m k v,
     Config.parseVolumeConfig storage_loaded total contents = Ok m ->
     m !! k = Some v -> fst v = Utils.HTTP).
Proof.
  split.
  - intros contents lines ret tp ret' tp' Htp Hv H.
    destruct (volume_lines_steps _ _ _ _ _ _ _ _ (conj Htp Hv) H) as [[? ?] ?]. auto.
  - intros contents m k v H Hk. unfold Config.parseVolumeConfig in H.
    inv_bind H. destruct a as [r t]. injection H as <-.
    assert (Hi0 : volumes_inv ∅ 0) by (split; [lia | intros k' v' Hk'; rewrite lookup_empty in Hk'; discriminate]).
    destruct (volume_lines_steps _ _ _ _ _ _ _ _ Hi0 Ha) as [[_ Hv] _].
    exact (Hv k v Hk).
Qed.

Lemma volume_config_invariant_witness :
  (0 <= 100 /\
   (forall k v, ({[1 := (Utils.HTTP, 10485760)]} : Config.volumes) !! k = Some v -> fst v = Utils.HTTP) /\
   (forall k, is_Some ((∅ : Config.volumes) !! k) ->
              is_Some (({[1 := (Utils.HTTP, 10485760)]} : Config.volumes) !! k))) /\
  fst (Utils.HTTP, 20971520) = Utils.HTTP.
Proof.
  split.
  - apply (proj1 (volume_config_invariant false 0) [] [x_volume_line] ∅ 0 _ 0).
    + lia.
    + intros k v Hk. rewrite lookup_empty in Hk. discriminate.
    + vm_compute. reflexivity.
  - apply (proj2 (volume_config_invariant false 0) c8_contents {[1 := (Utils.HTTP, 20971520)]} 1).
    + vm_compute. reflexivity.
    + reflexivity.
Defined.

Lemma volume_lines_skipped sl tc contents st lines :
  forallb skipped_line lines = true -> Config.volume_lines sl tc contents st lines = Ok st.
Proof.
  induction lines as [|l t IH]; intros H; [reflexivity|].
  cbn [forallb] in H. apply andb_true_iff in H as [Hl Ht].
  cbn [Config.volume_lines]. destruct st as [ret tp]. unfold Config.volume_line at 1.
  unfold skipped_line in Hl. rewrite Hl. cbn [bind]. exact (IH Ht).
Qed.

(** [parseVolumeConfig(contents)]: when every line, once stripped, is a
    comment or contains no [volume=], the loop skips them all (before
    any call to [utils.log]) and the result is the empty dictionary; in
    particular an empty or all-comment [volume.config] defines no volume
    and raises nothing. *)
Theorem parseVolumeConfig_no_definitions (storage_loaded : bool) (total : Z) (contents : string) :
  forallb skipped_line (Config.split_nl (Config.strip contents)) = true ->
  Config.parseVolumeConfig storage_loaded total contents = Ok ∅.
Proof.
  intros H. unfold Config.parseVolumeConfig.
  rewrite volume_lines_skipped by exact H. reflexivity.
Qed.

Lemma parseVolumeConfig_no_definitions_witness :
  Config.parseVolumeConfig true 0 x_comment_config = Ok ∅ /\
  Config.parseVolumeConfig false 0 EmptyString = Ok ∅.
Proof.
  split; apply parseVolumeConfig_no_definitions; vm_compute; reflexivity.
Defined.
